(** * The request handlers of the test-case generator service (frontend.py)

    A shallow embedding of [src/frontend.py]: the two POST handlers
    [generate_tests] and [analyze_code], the storage helpers
    [download_from_gcs] and [upload_to_gcs], and the Python operations they
    rely on (truthiness, [dict.get], subscripting, [len], [str.startswith],
    [str.split] with [maxsplit = 1], [strftime]).

    The collaborators that live outside the file (the Flask request, the
    storage client, [CodeAnalyzer], [TestGenerator], the clock and the
    process environment) are the fields of a record [services].  A handler
    run yields the list of collaborator calls it made, in order, and the
    HTTP response. *)

From Stdlib Require Import String Ascii List Arith ZArith Lia Bool.
Import ListNotations.
Open Scope string_scope.

(** ** Python values and exceptions *)

Module Py.

(** The values a JSON body, an analysis result or a generator result is
    made of.  A [dict] keeps its items in insertion order; its keys are
    distinct in Python, and [lookup] returns the first match.  A [float]
    is kept as mantissa and exponent: only its truthiness is observed.  A
    [str] is kept as its UTF-8 bytes. *)
#[local] Unset Elimination Schemes.
Inductive value : Type :=
| PyNone
| PyBool (b : bool)
| PyInt (z : Z)
| PyFloat (m e : Z)
| PyStr (s : string)
| PyList (l : list value)
| PyDict (d : list (string * value)).
#[local] Set Elimination Schemes.

Inductive pytype : Type :=
| TNone | TBool | TInt | TFloat | TStr | TList | TDict.

Definition type_of (v : value) : pytype :=
  match v with
  | PyNone => TNone
  | PyBool _ => TBool
  | PyInt _ => TInt
  | PyFloat _ _ => TFloat
  | PyStr _ => TStr
  | PyList _ => TList
  | PyDict _ => TDict
  end.

(** [bool(v)], the test behind [if v:] and [not v]. *)
Definition truthy (v : value) : bool :=
  match v with
  | PyNone => false
  | PyBool b => b
  | PyInt z => negb (z =? 0)%Z
  | PyFloat m _ => negb (m =? 0)%Z
  | PyStr s => negb (s =? "")
  | PyList l => match l with [] => false | _ :: _ => true end
  | PyDict d => match d with [] => false | _ :: _ => true end
  end.

Fixpoint lookup (k : string) (d : list (string * value)) : option value :=
  match d with
  | [] => None
  | (k', v) :: d' => if k' =? k then Some v else lookup k d'
  end.

(** The exceptions the interpreter itself raises in the handlers. *)
Inductive fault : Type :=
| NoAttribute (t : pytype) (attr : string)   (* AttributeError *)
| BadSubscript (t : pytype)       (* TypeError: v['key'], v not a dict *)
| NoLen (t : pytype)                         (* TypeError: len(v) *)
| MissingKey (k : string)                    (* KeyError *)
| IndexOutOfRange.                           (* IndexError *)

Inductive exn : Type :=
| ValueError (msg : string)        (* raise ValueError(msg) *)
| Fault (f : fault)
| Raised (cls msg : string).       (* raised inside a collaborator *)

Definition fault_class (f : fault) : string :=
  match f with
  | NoAttribute _ _ => "AttributeError"
  | BadSubscript _ => "TypeError"
  | NoLen _ => "TypeError"
  | MissingKey _ => "KeyError"
  | IndexOutOfRange => "IndexError"
  end.

Definition exn_class (e : exn) : string :=
  match e with
  | ValueError _ => "ValueError"
  | Fault f => fault_class f
  | Raised cls _ => cls
  end.

(** [str(e)].  The text of an interpreter-raised exception differs between
    CPython versions, so it is left to [fault_message]. *)
Definition str_exn (fault_message : fault -> string) (e : exn) : string :=
  match e with
  | ValueError msg => msg
  | Fault f => fault_message f
  | Raised _ msg => msg
  end.

End Py.
Import Py.

(** ** Calls to collaborators, and the monad that records them *)

(** A storage event stands for the whole exchange with the storage client:
    [storage_client.bucket(b)], [bucket.blob(k)] and the transfer. *)
Inductive event : Type :=
| EvDownload (bucket_name blob_name : string)          (* blob.download_as_text() *)
| EvAnalyze (source_code language : value)             (* code_analyzer.analyze *)
| EvGenerate (source_code analysis language test_types framework : value)
                                                       (* test_generator.generate *)
| EvUpload (bucket_name destination_path : string) (content : value).
                                                       (* blob.upload_from_string *)

Definition is_upload (ev : event) : bool :=
  match ev with
  | EvUpload _ _ _ => true
  | _ => false
  end.

Module Eff.

(** A computation: the calls made so far, then an exception or a value. *)
Definition M (A : Type) : Type := (list event * (exn + A))%type.

Definition ret {A} (a : A) : M A := ([], inr a).
Definition raise {A} (e : exn) : M A := ([], inl e).

Definition bind {A B} (m : M A) (f : A -> M B) : M B :=
  match m with
  | (t, inl e) => (t, inl e)
  | (t, inr a) => let (t', r) := f a in ((t ++ t')%list, r)
  end.

(** A call to a collaborator: it is recorded, then its outcome is taken. *)
Definition call {A} (ev : event) (outcome : exn + A) : M A := ([ev], outcome).

(** [try: body except Exception as e: return handler(e)]. *)
Definition try_except {A} (body : M A) (handler : exn -> A) : list event * A :=
  match body with
  | (t, inl e) => (t, handler e)
  | (t, inr a) => (t, a)
  end.

End Eff.
Import Eff.

Notation "x <- m ;; k" := (bind m (fun x => k))
  (at level 61, m at next level, right associativity).

(** Attribute access and subscripting as the handlers use them. *)

(** [d.get(key, default)] on the items of a dict. *)
Definition get_or (d : list (string * value)) (key : string) (default : value)
  : value :=
  match lookup key d with
  | Some x => x
  | None => default
  end.

(** [v.get(key, default)]; [v.get(key)] is [py_get v key PyNone]. *)
Definition py_get (v : value) (key : string) (default : value) : M value :=
  match v with
  | PyDict d => ret (get_or d key default)
  | _ => raise (Fault (NoAttribute (type_of v) "get"))
  end.

(** [v[key]] for a string key. *)
Definition py_getitem (v : value) (key : string) : M value :=
  match v with
  | PyDict d =>
      match lookup key d with
      | Some x => ret x
      | None => raise (Fault (MissingKey key))
      end
  | _ => raise (Fault (BadSubscript (type_of v)))
  end.

(** The number of code points of a text given as UTF-8 bytes: the bytes
    that do not continue a character ([10xxxxxx], that is 128 to 191). *)
Fixpoint code_points (s : string) : nat :=
  match s with
  | EmptyString => O
  | String a r =>
      let n := nat_of_ascii a in
      if ((128 <=? n) && (n <=? 191))%nat then code_points r
      else S (code_points r)
  end.

(** [len(v)]. *)
Definition py_len (v : value) : M value :=
  match v with
  | PyStr s => ret (PyInt (Z.of_nat (code_points s)))
  | PyList l => ret (PyInt (Z.of_nat (List.length l)))
  | PyDict d => ret (PyInt (Z.of_nat (List.length d)))
  | _ => raise (Fault (NoLen (type_of v)))
  end.

(** ** String operations of [download_from_gcs] *)

(** [s[n:]] *)
Fixpoint slice_from (n : nat) (s : string) : string :=
  match n, s with
  | O, _ => s
  | S n', String _ r => slice_from n' r
  | S _, EmptyString => EmptyString
  end.

(** The text before and after the first occurrence of [sep], if there is one. *)
Fixpoint partition_at (sep : ascii) (s : string) : option (string * string) :=
  match s with
  | EmptyString => None
  | String a r =>
      if Ascii.eqb a sep then Some (EmptyString, r)
      else match partition_at sep r with
           | Some (h, t) => Some (String a h, t)
           | None => None
           end
  end.

(** [s.split(sep, 1)] for a one-character separator. *)
Definition split1 (sep : ascii) (s : string) : list string :=
  match partition_at sep s with
  | Some (h, t) => [h; t]
  | None => [s]
  end.

(** [l[i]] on a list of strings. *)
Definition index (l : list string) (i : nat) : M string :=
  match nth_error l i with
  | Some x => ret x
  | None => raise (Fault IndexOutOfRange)
  end.

(** ** [datetime.now().strftime('%Y%m%d_%H%M%S')] *)

Module Clock.

Record datetime : Type := {
  year : nat; month : nat; day : nat;
  hour : nat; minute : nat; second : nat
}.

(** A reading of the clock whose year has four digits. *)
Definition valid (d : datetime) : Prop :=
  (1000 <= year d < 100 * 100 /\ 1 <= month d <= 12 /\ 1 <= day d <= 31 /\
   hour d <= 23 /\ minute d <= 59 /\ second d <= 59)%nat.

Definition digit (n : nat) : ascii := ascii_of_nat (48 + n mod 10).

(** Decimal digits of [n], most significant first, without padding. *)
Fixpoint decimal_fuel (fuel n : nat) : string :=
  match fuel with
  | O => EmptyString
  | S fuel' =>
      if (n <? 10)%nat then String (digit n) EmptyString
      else decimal_fuel fuel' (n / 10) ++ String (digit n) EmptyString
  end.

Definition decimal (n : nat) : string := decimal_fuel (S n) n.

(** [%m], [%d], [%H], [%M], [%S]: two digits, zero-padded. *)
Definition two_digits (n : nat) : string :=
  String (digit (n / 10)) (String (digit n) EmptyString).

(** [%Y] is the year in decimal (glibc does not pad it). *)
Definition strftime (d : datetime) : string :=
  decimal (year d) ++ two_digits (month d) ++ two_digits (day d) ++ "_" ++
  two_digits (hour d) ++ two_digits (minute d) ++ two_digits (second d).







End Clock.

(** ** The service *)

(** What the module reaches outside itself. *)
Record services : Type := {
  (** [os.getenv('GCS_BUCKET')] *)
  GCS_BUCKET : option string;
  (** [storage_client.bucket(b).blob(k).download_as_text()] *)
  download_as_text : string -> string -> exn + string;
  (** [storage_client.bucket(b).blob(k).upload_from_string(content)] *)
  upload_from_string : string -> string -> value -> exn + unit;
  (** [code_analyzer.analyze(source_code, language)] *)
  analyze : value -> value -> exn + value;
  (** [test_generator.generate(source_code, analysis, language, test_types, framework)] *)
  generate : value -> value -> value -> value -> value -> exn + value;
  (** [datetime.now()] *)
  now : Clock.datetime;
  (** the interpreter's text for its own exceptions *)
  fault_message : fault -> string
}.

(** The Flask request: what [request.get_json()] gives, [PyNone] when the
    request carries no JSON document. *)
Record request : Type := { get_json : exn + value }.

Record response : Type := { body : value; status : nat }.

(** [jsonify(v), code] *)
Definition jsonify (v : value) (code : nat) : response :=
  {| body := v; status := code |}.

Definition lift {A} (r : exn + A) : M A := ([], r).

Section Handlers.

Variable sv : services.

Definition BUCKET_NAME : string :=
  match GCS_BUCKET sv with
  | Some b => b
  | None => "ai-test-generator-bucket"
  end.

Definition health_check : response :=
  jsonify (PyDict [("status", PyStr "healthy");
                   ("service", PyStr "ai-test-generator")]) 200.

Definition download_from_gcs (gcs_path : value) : M value :=
  match gcs_path with
  | PyStr p =>
      if negb (prefix "gs://" p) then
        raise (ValueError "GCS path must start with gs://")
      else
        let path_parts := split1 "/" (slice_from 5 p) in
        bucket_name <- index path_parts 0 ;;
        blob_name <- index path_parts 1 ;;
        text <- call (EvDownload bucket_name blob_name)
                     (download_as_text sv bucket_name blob_name) ;;
        ret (PyStr text)
  | _ => raise (Fault (NoAttribute (type_of gcs_path) "startswith"))
  end.

Definition upload_to_gcs (content : value) (destination_path : string)
  : M value :=
  _ <- call (EvUpload BUCKET_NAME destination_path content)
            (upload_from_string sv BUCKET_NAME destination_path content) ;;
  ret (PyStr ("gs://" ++ BUCKET_NAME ++ "/" ++ destination_path)).

Definition default_test_types : value :=
  PyList [PyStr "unit"; PyStr "edge"; PyStr "negative"].

(** The body of the [try] block of [generate_tests]. *)
Definition generate_tests_try (req : request) : M response :=
  data <- lift (get_json req) ;;
  if negb (truthy data) then
    ret (jsonify (PyDict [("error", PyStr "Request body is required")]) 400)
  else
  source_code <- py_get data "source_code" PyNone ;;
  gcs_path <- py_get data "gcs_path" PyNone ;;
  if negb (truthy source_code) && negb (truthy gcs_path) then
    ret (jsonify (PyDict [("error",
           PyStr "Either source_code or gcs_path is required")]) 400)
  else
  source_code <- (if truthy gcs_path then download_from_gcs gcs_path
                  else ret source_code) ;;
  language <- py_get data "language" (PyStr "python") ;;
  test_types <- py_get data "test_types" default_test_types ;;
  framework <- py_get data "framework" (PyStr "pytest") ;;
  analysis_result <- call (EvAnalyze source_code language)
                          (analyze sv source_code language) ;;
  success <- py_getitem analysis_result "success" ;;
  if negb (truthy success) then
    details <- py_get analysis_result "error" PyNone ;;
    ret (jsonify (PyDict [("error", PyStr "Code analysis failed");
                          ("details", details)]) 400)
  else
  analysis <- py_getitem analysis_result "analysis" ;;
  generated_tests <-
    call (EvGenerate source_code analysis language test_types framework)
         (generate sv source_code analysis language test_types framework) ;;
  let timestamp := Clock.strftime (now sv) in
  let output_path := "generated_tests/" ++ timestamp ++ "_tests.py" in
  test_code <- py_getitem generated_tests "test_code" ;;
  gcs_url <- upload_to_gcs test_code output_path ;;
  r_tests <- py_getitem generated_tests "test_code" ;;
  r_analysis <- py_getitem analysis_result "analysis" ;;
  r_functions <- py_getitem r_analysis "functions" ;;
  r_count <- py_len r_functions ;;
  r_cases <- py_getitem generated_tests "test_count" ;;
  s_analysis <- py_getitem analysis_result "analysis" ;;
  r_summary <- py_getitem s_analysis "summary" ;;
  ret (jsonify
         (PyDict [("success", PyBool true);
                  ("generated_tests", r_tests);
                  ("gcs_path", gcs_url);
                  ("metadata",
                   PyDict [("functions_analyzed", r_count);
                           ("test_cases_generated", r_cases);
                           ("test_types", test_types);
                           ("framework", framework);
                           ("timestamp", PyStr timestamp)]);
                  ("analysis_summary", r_summary)]) 200).

Definition generate_tests (req : request) : list event * response :=
  try_except (generate_tests_try req)
    (fun e => jsonify (PyDict [("error", PyStr "Internal server error");
                               ("details", PyStr (str_exn (fault_message sv) e))])
                      500).

(** The body of the [try] block of [analyze_code]. *)
Definition analyze_code_try (req : request) : M response :=
  data <- lift (get_json req) ;;
  source_code <- py_get data "source_code" PyNone ;;
  gcs_path <- py_get data "gcs_path" PyNone ;;
  source_code <- (if truthy gcs_path then download_from_gcs gcs_path
                  else ret source_code) ;;
  if negb (truthy source_code) then
    ret (jsonify (PyDict [("error",
           PyStr "source_code or gcs_path is required")]) 400)
  else
  language <- py_get data "language" (PyStr "python") ;;
  analysis_result <- call (EvAnalyze source_code language)
                          (analyze sv source_code language) ;;
  ret (jsonify analysis_result 200).

Definition analyze_code (req : request) : list event * response :=
  try_except (analyze_code_try req)
    (fun e => jsonify (PyDict [("error",
                         PyStr (str_exn (fault_message sv) e))]) 500).

End Handlers.

(** ** Reading a response, and vocabulary for the statements *)

(** [v[key]] when it is defined. *)
Definition field (v : value) (key : string) : option value :=
  match v with
  | PyDict d => lookup key d
  | _ => None
  end.

(** [d.get(key)], and the three optional fields with their defaults. *)
Abbreviation get d key := (get_or d key PyNone).
Abbreviation language_of d := (get_or d "language" (PyStr "python")).
Abbreviation test_types_of d := (get_or d "test_types" default_test_types).
Abbreviation framework_of d := (get_or d "framework" (PyStr "pytest")).

(** The object key and the address [generate_tests] builds from the clock. *)
Definition output_path (sv : services) : string :=
  "generated_tests/" ++ Clock.strftime (now sv) ++ "_tests.py".

Definition output_url (sv : services) : string :=
  "gs://" ++ BUCKET_NAME sv ++ "/" ++ output_path sv.

(** The error bodies of the two generic handlers. *)
Definition internal_error (sv : services) (e : exn) : response :=
  jsonify (PyDict [("error", PyStr "Internal server error");
                   ("details", PyStr (str_exn (fault_message sv) e))]) 500.

Definition error_only (msg : string) (code : nat) : response :=
  jsonify (PyDict [("error", PyStr msg)]) code.

(** How the text handed to the analyzer was obtained from the body [d]:
    from the object at [gcs_path] when that field is truthy ([pre] is the
    storage read), otherwise from the inline [source_code]. *)
Definition resolved (sv : services) (d : list (string * value))
           (source_code : value) (pre : list event) : Prop :=
  (truthy (get d "gcs_path") = false /\
   truthy (get d "source_code") = true /\
   source_code = get d "source_code" /\ pre = [])
  \/
  (exists p bucket_name blob_name text,
      get d "gcs_path" = PyStr p /\ truthy (PyStr p) = true /\
      prefix "gs://" p = true /\
      partition_at "/" (slice_from 5 p) = Some (bucket_name, blob_name) /\
      download_as_text sv bucket_name blob_name = inr text /\
      source_code = PyStr text /\
      pre = [EvDownload bucket_name blob_name]).

(** The [400] answer of [generate_tests] to a failed analysis. *)
Definition analysis_failed (details : value) : response :=
  jsonify (PyDict [("error", PyStr "Code analysis failed");
                   ("details", details)]) 400.

(** ** The runs of [generate_tests]

    Where a run of [generate_tests] can end, by the calls it has made:
    before any call; in a failed storage read; after the analyzer; after
    the generator; after the storage write. *)
Section Runs.

Variable sv : services.
Variable req : request.

(** How a run ends after the analyzer's outcome [out], short of calling
    the generator. *)
Definition analysis_stops (out : exn + value) (resp : response) : Prop :=
  match out with
  | inl e => resp = internal_error sv e
  | inr analysis_result =>
      (exists e, py_getitem analysis_result "success" = raise e /\
                 resp = internal_error sv e)
      \/
      (exists success,
          field analysis_result "success" = Some success /\
          truthy success = false /\
          exists d', analysis_result = PyDict d' /\
                     resp = analysis_failed (get d' "error"))
      \/
      (exists success e,
          field analysis_result "success" = Some success /\
          truthy success = true /\
          py_getitem analysis_result "analysis" = raise e /\
          resp = internal_error sv e)
  end.

(** How a run ends after the generator's outcome [out], short of
    writing to storage. *)
Definition generation_stops (out : exn + value) (resp : response) : Prop :=
  match out with
  | inl e => resp = internal_error sv e
  | inr generated =>
      exists e, py_getitem generated "test_code" = raise e /\
                resp = internal_error sv e
  end.

(** How a run ends after the storage write's outcome [out]. *)
Definition upload_stops (out : exn + unit) (resp : response) : Prop :=
  match out with
  | inl e => resp = internal_error sv e
  | inr _ => status resp = 200 \/ exists e, resp = internal_error sv e
  end.

Inductive generate_tests_run (tr : list event) (resp : response) : Prop :=
| Run_no_call :
    tr = [] ->
    (exists e, resp = internal_error sv e) \/
    resp = error_only "Request body is required" 400 \/
    resp = error_only "Either source_code or gcs_path is required" 400 ->
    generate_tests_run tr resp
| Run_download_failed d e :
    get_json req = inr (PyDict d) ->
    truthy (get d "gcs_path") = true ->
    download_from_gcs sv (get d "gcs_path") = (tr, inl e) ->
    resp = internal_error sv e ->
    generate_tests_run tr resp
| Run_analyzed d source_code pre out :
    get_json req = inr (PyDict d) ->
    resolved sv d source_code pre ->
    tr = (pre ++ [EvAnalyze source_code (language_of d)])%list ->
    analyze sv source_code (language_of d) = out ->
    analysis_stops out resp ->
    generate_tests_run tr resp
| Run_generated d source_code pre analysis_result success analysis out :
    get_json req = inr (PyDict d) ->
    resolved sv d source_code pre ->
    analyze sv source_code (language_of d) = inr analysis_result ->
    field analysis_result "success" = Some success ->
    truthy success = true ->
    field analysis_result "analysis" = Some analysis ->
    tr = (pre ++
          [EvAnalyze source_code (language_of d);
           EvGenerate source_code analysis (language_of d)
                      (test_types_of d) (framework_of d)])%list ->
    generate sv source_code analysis (language_of d) (test_types_of d)
             (framework_of d) = out ->
    generation_stops out resp ->
    generate_tests_run tr resp
| Run_uploaded d source_code pre analysis_result success analysis
               generated test_code out :
    get_json req = inr (PyDict d) ->
    resolved sv d source_code pre ->
    analyze sv source_code (language_of d) = inr analysis_result ->
    field analysis_result "success" = Some success ->
    truthy success = true ->
    field analysis_result "analysis" = Some analysis ->
    generate sv source_code analysis (language_of d) (test_types_of d)
             (framework_of d) = inr generated ->
    field generated "test_code" = Some test_code ->
    tr = (pre ++
          [EvAnalyze source_code (language_of d);
           EvGenerate source_code analysis (language_of d)
                      (test_types_of d) (framework_of d);
           EvUpload (BUCKET_NAME sv) (output_path sv) test_code])%list ->
    upload_from_string sv (BUCKET_NAME sv) (output_path sv) test_code
      = out ->
    upload_stops out resp ->
    generate_tests_run tr resp.

End Runs.

(** [c] occurs in [s]. *)
Fixpoint contains (c : ascii) (s : string) : bool :=
  match s with
  | EmptyString => false
  | String a r => Ascii.eqb a c || contains c r
  end.

(** The request whose JSON document is [v]. *)
Definition json_request (v : value) : request := {| get_json := inr v |}.

(** The address shape [scheme://bucket/key] of the specification: a
    non-empty scheme, then [://], a non-empty bucket, [/], a non-empty key. *)
Definition address_shape (s : string) : bool :=
  match String.index 0 "://" s with
  | Some n =>
      negb (n =? 0)%nat &&
      match partition_at "/" (slice_from (n + 3) s) with
      | Some (bucket_name, key) => negb (bucket_name =? "") && negb (key =? "")
      | None => false
      end
  | None => false
  end.

(** The body carries exactly one of [source_code] and [gcs_path]. *)
Definition exclusive_sources (d : list (string * value)) : bool :=
  xorb (truthy (get d "source_code")) (truthy (get d "gcs_path")).

(** A GeneratedTests value as the specification describes it: a
    [test_code] that is text and a [test_count] that is an integer, not
    negative. *)
Definition is_generated_tests (g : value) : bool :=
  match field g "test_code", field g "test_count" with
  | Some (PyStr _), Some (PyInt n) => (0 <=? n)%Z
  | _, _ => false
  end.

(** A deployment to run the handlers on: one object in storage is empty, the
    analyzer rejects one text, the generator rejects one framework. *)
Module Sample.

Definition clock : Clock.datetime :=
  {| Clock.year := 2024; Clock.month := 3; Clock.day := 9;
     Clock.hour := 7; Clock.minute := 5; Clock.second := 0 |}.

Definition analysis : value :=
  PyDict [("functions", PyList [PyStr "add"]);
          ("summary", PyStr "1 function")].

Definition failed_analysis : value :=
  PyDict [("success", PyBool false); ("error", PyStr "invalid syntax")].

Definition sv : services :=
  {| GCS_BUCKET := None;
     download_as_text := fun _ blob_name =>
       if blob_name =? "empty.py" then inr ""
       else inr "def add(a, b): return a + b";
     upload_from_string := fun _ _ _ => inr tt;
     analyze := fun source_code _ =>
       match source_code with
       | PyStr "def broken(:" => inr failed_analysis
       | _ => inr (PyDict [("success", PyBool true); ("analysis", analysis)])
       end;
     generate := fun _ _ _ _ framework =>
       match framework with
       | PyStr "junit" => inl (Raised "GenerationError" "junit is not a python framework")
       | _ => inr (PyDict [("test_code", PyStr "def test_add(): assert add(1, 2) == 3");
                           ("test_count", PyInt 1)])
       end;
     now := clock;
     fault_message := fun f => fault_class f |}.

Definition inline : request :=
  json_request (PyDict [("source_code", PyStr "def add(a, b): return a + b")]).

Definition both : request :=
  json_request (PyDict [("source_code", PyStr "x = 1");
                        ("gcs_path", PyStr "gs://code/src/add.py")]).

Definition junit : request :=
  json_request (PyDict [("source_code", PyStr "def add(a, b): return a + b");
                        ("framework", PyStr "junit")]).

Definition broken : request :=
  json_request (PyDict [("source_code", PyStr "def broken(:")]).

Definition empty_object : request :=
  json_request (PyDict [("gcs_path", PyStr "gs://code/empty.py")]).

End Sample.

(** The calls of a run come in the order of the pipeline: an optional
    storage read, then the analyzer, then the generator, then the storage
    write, each at most once and none without the one before it. *)
Definition calls_in_order (tr : list event) : bool :=
  let after_read (r : list event) :=
    match r with
    | [] => true
    | [EvAnalyze _ _] => true
    | [EvAnalyze _ _; EvGenerate _ _ _ _ _] => true
    | [EvAnalyze _ _; EvGenerate _ _ _ _ _; EvUpload _ _ _] => true
    | _ => false
    end in
  match tr with
  | EvDownload _ _ :: r => after_read r
  | _ => after_read tr
  end.

Definition is_generate_or_upload (ev : event) : bool :=
  match ev with
  | EvGenerate _ _ _ _ _ | EvUpload _ _ _ => true
  | _ => false
  end.

(** The collaborator behind the call [ev] raises [e]. *)
Definition raises (sv : services) (ev : event) (e : exn) : Prop :=
  match ev with
  | EvDownload b k => download_as_text sv b k = inl e
  | EvAnalyze s l => analyze sv s l = inl e
  | EvGenerate s a l t f => generate sv s a l t f = inl e
  | EvUpload b p c => upload_from_string sv b p c = inl e
  end.

(** Two more deployments: one whose generator returns tests without a
    count, one whose storage has no object to read. *)
Module Scenario.

Definition no_count : services :=
  {| GCS_BUCKET := Some "tests-bucket";
     download_as_text := download_as_text Sample.sv;
     upload_from_string := upload_from_string Sample.sv;
     analyze := analyze Sample.sv;
     generate := fun _ _ _ _ _ =>
       inr (PyDict [("test_code", PyStr "def test_add(): pass")]);
     now := now Sample.sv;
     fault_message := fault_message Sample.sv |}.

Definition read_fails : services :=
  {| GCS_BUCKET := None;
     download_as_text := fun _ _ => inl (Raised "NotFound" "404 No such object");
     upload_from_string := upload_from_string Sample.sv;
     analyze := analyze Sample.sv;
     generate := generate Sample.sv;
     now := now Sample.sv;
     fault_message := fault_message Sample.sv |}.

Definition stored : request :=
  json_request (PyDict [("gcs_path", PyStr "gs://code/src/add.py")]).



(** A request whose body is not JSON, where [request.get_json()] raises
    instead of giving [None]. *)
Definition not_json : request :=
  {| get_json :=
       inl (Raised "UnsupportedMediaType"
                   "415 Unsupported Media Type: Did not attempt to load JSON data because the request Content-Type was not 'application/json'.") |}.

End Scenario.

(** * Proofs *)

(** ** Running a handler symbolically

    [run_in H] follows the handler in [H : handler sv req = (tr, resp)]
    statement by statement: it splits on the outcome of the first pending
    test or call, and stops at the returned pair. *)

Ltac pending t :=
  lazymatch t with
  | match ?x with _ => _ end => pending x
  | _ => t
  end.

Ltac expose H :=
  cbv beta iota zeta delta
    [generate_tests generate_tests_try analyze_code analyze_code_try
     upload_to_gcs
     bind ret raise call lift try_except
     py_get py_getitem type_of json_request] in H.

Ltac run_in H :=
  expose H;
  repeat
    (lazymatch type of H with
     | ?lhs = _ =>
         let s := pending lhs in
         lazymatch s with
         | pair _ _ => fail
         | _ => revert H; destruct s eqn:?; intro H
         end
     end; expose H);
  injection H as <- <-.

(** ** The timestamp *)

Module ClockFacts.
Import Clock.


Lemma decimal_fuel_small fuel n :
  n < 10 -> decimal_fuel (S fuel) n = String (digit n) EmptyString.
Proof.
  intros Hn. simpl. apply Nat.ltb_lt in Hn. now rewrite Hn.
Qed.

Lemma decimal_fuel_large fuel n :
  10 <= n ->
  decimal_fuel (S fuel) n =
  decimal_fuel fuel (n / 10) ++ String (digit n) EmptyString.
Proof.
  intros Hn. simpl. destruct (Nat.ltb_spec n 10); [lia|reflexivity].
Qed.

(** A year of four digits prints as its four digits. *)
Lemma decimal_four_digits y :
  1000 <= y < 100 * 100 ->
  decimal y =
  String (digit (y / 10 / 10 / 10))
    (String (digit (y / 10 / 10))
       (String (digit (y / 10)) (String (digit y) EmptyString))).
Proof.
  intros Hy. unfold decimal.
  replace (S y) with (S (S (S (S (y - 3))))) by lia.
  assert (H1 : 100 <= y / 10) by (apply Nat.div_le_lower_bound; lia).
  assert (H2 : 10 <= y / 10 / 10) by (apply Nat.div_le_lower_bound; lia).
  assert (H3 : y / 10 / 10 / 10 < 10).
  { repeat (apply Nat.Div0.div_lt_upper_bound); lia. }
  rewrite decimal_fuel_large by lia.
  rewrite decimal_fuel_large by lia.
  rewrite decimal_fuel_large by lia.
  rewrite decimal_fuel_small by lia.
  reflexivity.
Qed.






End ClockFacts.

Section HandlerFacts.

Variable sv : services.

Lemma split1_both c s a b :
  nth_error (split1 c s) 0 = Some a ->
  nth_error (split1 c s) 1 = Some b ->
  partition_at c s = Some (a, b).
Proof.
  unfold split1. destruct (partition_at c s) as [[h t]|]; simpl.
  - congruence.
  - discriminate.
Qed.

(** What a normal return of [download_from_gcs] tells. *)
Lemma download_from_gcs_ok gcs_path t v :
  download_from_gcs sv gcs_path = (t, inr v) ->
  exists p bucket_name blob_name text,
    gcs_path = PyStr p /\ prefix "gs://" p = true /\
    partition_at "/" (slice_from 5 p) = Some (bucket_name, blob_name) /\
    download_as_text sv bucket_name blob_name = inr text /\
    v = PyStr text /\ t = [EvDownload bucket_name blob_name].
Proof.
  unfold download_from_gcs. destruct gcs_path as [| | | |p| |]; try discriminate.
  destruct (prefix "gs://" p) eqn:Hp; simpl; [|discriminate].
  unfold index, bind, ret, raise, call.
  destruct (nth_error _ 0) as [b|] eqn:H0; [|discriminate].
  destruct (nth_error _ 1) as [k|] eqn:H1; [|discriminate].
  destruct (download_as_text sv b k) as [e|text] eqn:Hd; [discriminate|].
  simpl. intros [= <- <-].
  exists p, b, k, text. eauto 10 using split1_both.
Qed.

(** [download_from_gcs] makes at most one call, the storage read. *)
Lemma download_from_gcs_calls gcs_path t r :
  download_from_gcs sv gcs_path = (t, r) ->
  t = [] \/ exists bucket_name blob_name, t = [EvDownload bucket_name blob_name].
Proof.
  unfold download_from_gcs. destruct gcs_path as [| | | |p| |];
    try (intros [= <- <-]; now left).
  destruct (prefix "gs://" p); simpl; [|intros [= <- <-]; now left].
  unfold index, bind, ret, raise, call.
  destruct (nth_error _ 0) as [b|]; [|intros [= <- <-]; now left].
  destruct (nth_error _ 1) as [k|]; [|intros [= <- <-]; now left].
  destruct (download_as_text sv b k); simpl; intros [= <- <-]; eauto.
Qed.

Lemma py_len_ok v t count :
  py_len v = (t, inr count) -> t = [] /\ py_len v = ret count.
Proof.
  destruct v; simpl; unfold ret, raise; intros [= <- <-]; auto.
Qed.

Lemma py_len_pure v t r : py_len v = (t, r) -> t = [].
Proof.
  destruct v; simpl; unfold ret, raise; intros [= <- <-]; auto.
Qed.

(** A [200] from [generate_tests] comes from one path only: every stage
    returned normally, in the order resolve, analyze, generate, persist. *)
Lemma generate_tests_200 req tr resp :
  generate_tests sv req = (tr, resp) ->
  status resp = 200 ->
  exists d source_code pre analysis_result analysis generated test_code
         functions count cases summary,
    get_json req = inr (PyDict d) /\
    resolved sv d source_code pre /\
    analyze sv source_code (language_of d) = inr analysis_result /\
    field analysis_result "analysis" = Some analysis /\
    generate sv source_code analysis (language_of d) (test_types_of d)
             (framework_of d) = inr generated /\
    field generated "test_code" = Some test_code /\
    upload_from_string sv (BUCKET_NAME sv) (output_path sv) test_code
      = inr tt /\
    field analysis "functions" = Some functions /\
    py_len functions = ret count /\
    field generated "test_count" = Some cases /\
    field analysis "summary" = Some summary /\
    tr = (pre ++
          [EvAnalyze source_code (language_of d);
           EvGenerate source_code analysis (language_of d)
                      (test_types_of d) (framework_of d);
           EvUpload (BUCKET_NAME sv) (output_path sv) test_code])%list /\
    resp = jsonify
             (PyDict [("success", PyBool true);
                      ("generated_tests", test_code);
                      ("gcs_path", PyStr (output_url sv));
                      ("metadata",
                       PyDict [("functions_analyzed", count);
                               ("test_cases_generated", cases);
                               ("test_types", test_types_of d);
                               ("framework", framework_of d);
                               ("timestamp",
                                PyStr (Clock.strftime (now sv)))]);
                      ("analysis_summary", summary)]) 200.
Proof.
  intros H H200.
  run_in H.
  all: try (simpl in H200; discriminate).
  all: clear H200.
  all: repeat match goal with
         | u : unit |- _ => destruct u
         | H : py_len _ = (_, inr _) |- _ =>
             apply py_len_ok in H; destruct H as [-> H]
         end.
  - (* the text came from storage *)
    match goal with
    | H : download_from_gcs _ _ = _ |- _ =>
        apply download_from_gcs_ok in H;
        destruct H as (p & b & k & text & Hgp & Hpre & Hpart & Hdl & -> & ->)
    end.
    do 11 eexists. split; [reflexivity|]. split.
    { right. exists p, b, k, text. rewrite Hgp in *. auto 10. }
    repeat (split; [eassumption || reflexivity|]). reflexivity.
  - (* the text came inline *)
    do 11 eexists. split; [reflexivity|]. split.
    { left.
      match goal with
      | H : _ && _ = false |- _ =>
          apply andb_false_iff in H; simpl in H; destruct H as [H|H];
          [apply negb_false_iff in H|discriminate]
      end. auto. }
    repeat (split; [eassumption || reflexivity|]). reflexivity.
Qed.

Lemma resolved_inline d :
  truthy (get d "gcs_path") = false ->
  negb (truthy (get d "source_code")) && negb false = false ->
  resolved sv d (get d "source_code") [].
Proof.
  intros Hg Hs. left. apply andb_false_iff in Hs. simpl in Hs.
  destruct Hs as [Hs|Hs]; [apply negb_false_iff in Hs|discriminate]. auto.
Qed.

Lemma resolved_download d t v :
  truthy (get d "gcs_path") = true ->
  download_from_gcs sv (get d "gcs_path") = (t, inr v) ->
  resolved sv d v t.
Proof.
  intros Hg H. apply download_from_gcs_ok in H.
  destruct H as (p & b & k & text & Hgp & Hpre & Hpart & Hdl & -> & ->).
  right. exists p, b, k, text. rewrite Hgp in *. auto 10.
Qed.

(** Leaves of a symbolic run: the pieces of a [generate_tests_run]. *)

Ltac is_internal_error :=
  first [ eexists; reflexivity | eexists (Fault _); reflexivity ].

Ltac by_lookup :=
  first [ eassumption | reflexivity
        | cbv [py_getitem field type_of];
          match goal with
          | H : lookup _ _ = _ |- _ => rewrite H; reflexivity
          end ].

Ltac is_resolved :=
  first [ eapply resolved_download; eassumption
        | eapply resolved_inline; eassumption ].

Ltac stops_after_analysis :=
  cbv [analysis_stops];
  first [ reflexivity
        | left; eexists; split; by_lookup
        | right; left; eexists; split; [by_lookup|];
          split; [assumption|]; eexists; split; reflexivity
        | right; right; do 2 eexists; split; [by_lookup|];
          split; [assumption|]; split; by_lookup ].

Ltac stops_after_generation :=
  cbv [generation_stops];
  first [ reflexivity | eexists; split; by_lookup ].

Ltac stops_after_upload :=
  cbv [upload_stops];
  first [ reflexivity | left; reflexivity | right; is_internal_error ].

(** Every run of [generate_tests] is one of those runs. *)
Lemma generate_tests_runs req tr resp :
  generate_tests sv req = (tr, resp) -> generate_tests_run sv req tr resp.
Proof.
  intros H.
  run_in H.
  all: repeat match goal with
         | u : unit |- _ => destruct u
         | H : py_len _ = (_, _) |- _ => apply py_len_pure in H; subst
         | H : negb _ = true |- _ => apply negb_true_iff in H
         | H : negb _ = false |- _ => apply negb_false_iff in H
         end.
  all: try solve [eapply Run_no_call; [reflexivity|];
                  first [ left; is_internal_error
                        | right; left; reflexivity
                        | right; right; reflexivity ] ].
  all: try solve [eapply Run_download_failed; solve [eassumption | reflexivity] ].
  all: try solve [eapply Run_analyzed;
                  [eassumption | is_resolved | reflexivity | eassumption
                  | stops_after_analysis] ].
  all: try solve [eapply Run_generated;
                  [eassumption | is_resolved | eassumption | by_lookup
                  | eassumption | by_lookup | reflexivity | eassumption
                  | stops_after_generation] ].
  all: try solve [eapply Run_uploaded;
                  [eassumption | is_resolved | eassumption | by_lookup
                  | eassumption | by_lookup | eassumption | by_lookup
                  | reflexivity | eassumption | stops_after_upload] ].
Qed.

(** Resolution makes at most one call, the storage read. *)
Lemma resolved_calls d source_code pre :
  resolved sv d source_code pre ->
  pre = [] \/ exists bucket_name blob_name, pre = [EvDownload bucket_name blob_name].
Proof.
  intros [(_ & _ & _ & ->)|(p & b & k & text & _ & _ & _ & _ & _ & _ & ->)];
    eauto.
Qed.

(** Whenever [analyze_code] reaches the analyzer, the text it passes was
    resolved from the body, and the analyzer is the last call. *)
Lemma analyze_code_analyzed req tr resp source_code language :
  analyze_code sv req = (tr, resp) ->
  In (EvAnalyze source_code language) tr ->
  exists d pre,
    get_json req = inr (PyDict d) /\
    resolved sv d source_code pre /\
    language = language_of d /\
    tr = (pre ++ [EvAnalyze source_code language])%list /\
    match analyze sv source_code language with
    | inl e => resp = error_only (str_exn (fault_message sv) e) 500
    | inr analysis_result => resp = jsonify analysis_result 200
    end.
Proof.
  intros H Hin.
  run_in H.
  all: repeat match goal with
         | H : negb _ = true |- _ => apply negb_true_iff in H
         | H : negb _ = false |- _ => apply negb_false_iff in H
         | H : download_from_gcs _ _ = (_, inl _) |- _ =>
             apply download_from_gcs_calls in H; destruct H as [->|(? & ? & ->)]
         end.
  all: try (simpl in Hin; intuition discriminate).
  all: match goal with
       | H : download_from_gcs _ _ = (_, inr _) |- _ =>
           pose proof (resolved_download _ _ _ ltac:(eassumption) H) as Hres;
           destruct (resolved_calls _ _ _ Hres) as [->|(? & ? & ->)]
       | H : truthy (get ?d "gcs_path") = false |- _ =>
           assert (Hres : resolved sv d (get d "source_code") [])
             by (left; auto)
       end.
  all: simpl in Hin; try (intuition discriminate).
  all: repeat match goal with
         | H : _ \/ _ |- _ => destruct H as [H|H]; try discriminate
         | H : False |- _ => destruct H
         | H : EvAnalyze _ _ = EvAnalyze _ _ |- _ =>
             injection H as <- <-
         end.
  all: do 2 eexists; split; [reflexivity|]; split; [exact Hres|].
  all: split; [reflexivity|]; split; [reflexivity|].
  all: match goal with
       | H : analyze _ _ _ = _ |- _ => rewrite H; reflexivity
       end.
Qed.

(** An exception of [download_from_gcs] reaches the generic handler
    of either endpoint. *)
Lemma generate_tests_download_raises d t e :
  truthy (get d "gcs_path") = true ->
  download_from_gcs sv (get d "gcs_path") = (t, inl e) ->
  generate_tests sv (json_request (PyDict d)) = (t, internal_error sv e).
Proof.
  intros Ht Hd.
  destruct d as [|x d']; [discriminate|].
  cbv beta iota zeta delta
    [generate_tests generate_tests_try json_request get_json lift bind ret
     py_get try_except].
  change (truthy (PyDict (x :: d'))) with true.
  rewrite Ht, Hd, andb_false_r. reflexivity.
Qed.

Lemma analyze_code_download_raises d t e :
  truthy (get d "gcs_path") = true ->
  download_from_gcs sv (get d "gcs_path") = (t, inl e) ->
  analyze_code sv (json_request (PyDict d)) =
  (t, error_only (str_exn (fault_message sv) e) 500).
Proof.
  intros Ht Hd.
  cbv beta iota zeta delta
    [analyze_code analyze_code_try json_request get_json lift bind ret
     py_get try_except].
  rewrite Ht, Hd. reflexivity.
Qed.

Lemma partition_at_none c s :
  contains c s = false -> partition_at c s = None.
Proof.
  induction s as [|a r IH]; simpl; [reflexivity|].
  destruct (Ascii.eqb a c); simpl; [discriminate|].
  intros H. now rewrite (IH H).
Qed.

Lemma prefix_nonempty p : prefix "gs://" p = true -> truthy (PyStr p) = true.
Proof. destruct p; [discriminate|reflexivity]. Qed.

End HandlerFacts.

(** * The claims *)

(** ** The pipeline of [generate_tests] *)

Section Pipeline.

Variable sv : services.

Ltac no_such_call Hin :=
  simpl in Hin; intuition discriminate.

Ltac split_pre Hres :=
  destruct (resolved_calls sv _ _ _ Hres) as [->|(? & ? & ->)].

Ltac same_call Hres Hin :=
  split_pre Hres; simpl in Hin;
  repeat match goal with
    | H : _ \/ _ |- _ => destruct H as [H|H]; try discriminate
    | H : False |- _ => destruct H
    end;
  congruence.

(** C5, as the code has it.  On [generate_tests] a storage write is
    always the call right after a generator call that returned, without
    raising, a value whose [test_code] could be read, and that
    [test_code] is what is written; the write does not wait for anything
    else of the returned value.  When the generator raises, or returns a
    value without [test_code], nothing is written and the response is the
    structured [500] error. *)
Theorem upload_only_after_generation req tr resp :
  generate_tests sv req = (tr, resp) ->
  (forall bucket_name path content,
      In (EvUpload bucket_name path content) tr ->
      exists pre source_code analysis language test_types framework generated,
        tr = (pre ++
              [EvGenerate source_code analysis language test_types framework;
               EvUpload bucket_name path content])%list /\
        existsb is_upload pre = false /\
        generate sv source_code analysis language test_types framework
          = inr generated /\
        field generated "test_code" = Some content)
  /\
  (forall source_code analysis language test_types framework,
      In (EvGenerate source_code analysis language test_types framework) tr ->
      (forall generated,
          generate sv source_code analysis language test_types framework
            = inr generated ->
          field generated "test_code" = None) ->
      existsb is_upload tr = false /\
      status resp = 500 /\
      exists e, resp = internal_error sv e /\
                (forall e',
                    generate sv source_code analysis language test_types
                             framework = inl e' -> e = e')).
Proof.
  intros H. apply generate_tests_runs in H. split.
  - intros b p c Hin.
    destruct H as [-> _
                  | d e _ _ Hd _
                  | d src pre out _ Hres -> _ _
                  | d src pre ares success ana out _ Hres _ _ _ _ -> _ _
                  | d src pre ares success ana g code out _ Hres _ _ _ _
                      Hgen Hcode -> _ _].
    + no_such_call Hin.
    + apply download_from_gcs_calls in Hd as [->|(? & ? & ->)];
        no_such_call Hin.
    + split_pre Hres; no_such_call Hin.
    + split_pre Hres; no_such_call Hin.
    + assert (Heq : EvUpload b p c =
                    EvUpload (BUCKET_NAME sv) (output_path sv) code)
        by same_call Hres Hin.
      injection Heq as -> -> ->.
      exists (pre ++ [EvAnalyze src (language_of d)])%list, src, ana,
        (language_of d), (test_types_of d), (framework_of d), g.
      rewrite <- app_assoc.
      split; [reflexivity|]. split; [split_pre Hres; reflexivity|]. auto.
  - intros src' ana' lang' tys' fw' Hin Hfail.
    destruct H as [-> _
                  | d e _ _ Hd _
                  | d src pre out _ Hres -> _ _
                  | d src pre ares success ana out _ Hres _ _ _ _ -> Hgen Hstop
                  | d src pre ares success ana g code out _ Hres _ _ _ _
                      Hgen Hcode -> _ _].
    + no_such_call Hin.
    + apply download_from_gcs_calls in Hd as [->|(? & ? & ->)];
        no_such_call Hin.
    + split_pre Hres; no_such_call Hin.
    + assert (Heq : EvGenerate src' ana' lang' tys' fw' =
                    EvGenerate src ana (language_of d) (test_types_of d)
                               (framework_of d))
        by same_call Hres Hin.
      injection Heq as -> -> -> -> ->.
      split; [split_pre Hres; reflexivity|].
      subst out. unfold generation_stops in Hstop.
      destruct (generate sv src ana _ _ _) as [e|g].
      * subst resp. split; [reflexivity|]. exists e. split; congruence.
      * destruct Hstop as (e & _ & ->). split; [reflexivity|].
        exists e. split; [reflexivity|discriminate].
    + assert (Heq : EvGenerate src' ana' lang' tys' fw' =
                    EvGenerate src ana (language_of d) (test_types_of d)
                               (framework_of d))
        by same_call Hres Hin.
      injection Heq as -> -> -> -> ->.
      specialize (Hfail _ Hgen). congruence.
Qed.

(** X18. [generate_tests] checks the required fields before its first call:
    a run that made a call had [source_code] or [gcs_path]. *)
Lemma generate_tests_validates_first req tr resp :
  generate_tests sv req = (tr, resp) ->
  tr <> [] ->
  exists d,
    get_json req = inr (PyDict d) /\
    truthy (get d "source_code") || truthy (get d "gcs_path") = true.
Proof.
  intros H Hne. apply generate_tests_runs in H.
  assert (Hres : forall d src pre,
             resolved sv d src pre ->
             truthy (get d "source_code") || truthy (get d "gcs_path") = true).
  { intros d src pre [(_ & -> & _)|(p & _ & _ & _ & -> & -> & _)];
      [reflexivity|apply orb_true_r]. }
  destruct H as [-> _
                | d e Hj Hg _ _
                | d src pre out Hj Hr _ _ _
                | d src pre ares success ana out Hj Hr _ _ _ _ _ _ _
                | d src pre ares success ana g code out Hj Hr _ _ _ _ _ _ _ _ _];
    [contradiction| exists d; split; [assumption|].. ];
    [rewrite Hg; apply orb_true_r | eauto ..].
Qed.

(** X19. [generate_tests] answers [400] when the analyzer's result has a falsy
    [success], and stops there. *)
Lemma generate_tests_rejects_failed_analysis
      req tr resp source_code language analysis_result success :
  generate_tests sv req = (tr, resp) ->
  In (EvAnalyze source_code language) tr ->
  analyze sv source_code language = inr analysis_result ->
  field analysis_result "success" = Some success ->
  truthy success = false ->
  exists d' pre,
    analysis_result = PyDict d' /\
    resp = analysis_failed (get d' "error") /\
    tr = (pre ++ [EvAnalyze source_code language])%list.
Proof.
  intros H Hin Han Hsucc Hfalse. apply generate_tests_runs in H.
  destruct H as [-> _
                | d e _ _ Hd _
                | d src pre out Hj Hres -> Hout Hstop
                | d src pre ares s ana out Hj Hres Han' Hs Ht _ -> _ _
                | d src pre ares s ana g code out Hj Hres Han' Hs Ht _
                    _ _ -> _ _].
  - no_such_call Hin.
  - apply download_from_gcs_calls in Hd as [->|(? & ? & ->)];
      no_such_call Hin.
  - assert (Heq : EvAnalyze source_code language =
                  EvAnalyze src (language_of d))
      by same_call Hres Hin.
    injection Heq as -> ->. rewrite Han in Hout. subst out.
    destruct Hstop as [(e & Hraise & _)
                      |[(s & Hs & _ & d' & -> & ->)
                       |(s & e & Hs & Ht & _)]].
    + apply (f_equal snd) in Hraise. unfold py_getitem, field in *.
      destruct analysis_result; try discriminate.
      rewrite Hsucc in Hraise. discriminate.
    + eauto.
    + congruence.
  - assert (Heq : EvAnalyze source_code language =
                  EvAnalyze src (language_of d))
      by same_call Hres Hin.
    injection Heq as -> ->. congruence.
  - assert (Heq : EvAnalyze source_code language =
                  EvAnalyze src (language_of d))
      by same_call Hres Hin.
    injection Heq as -> ->. congruence.
Qed.


(** C8. The body of a [200] from [generate_tests] is made of [success],
    [generated_tests], [gcs_path], [metadata] and [analysis_summary];
    [generated_tests] is the generator's [test_code],
    [functions_analyzed] is [len] of the analysis' [functions] (the
    length of that list), [test_cases_generated] is the generator's
    [test_count]. *)
Theorem success_response_fields req tr resp :
  generate_tests sv req = (tr, resp) ->
  status resp = 200 ->
  exists d source_code analysis_result analysis functions generated
         test_code test_count count summary gcs_url,
    get_json req = inr (PyDict d) /\
    In (EvAnalyze source_code (language_of d)) tr /\
    analyze sv source_code (language_of d) = inr analysis_result /\
    field analysis_result "analysis" = Some analysis /\
    field analysis "functions" = Some functions /\
    field analysis "summary" = Some summary /\
    generate sv source_code analysis (language_of d) (test_types_of d)
             (framework_of d) = inr generated /\
    field generated "test_code" = Some test_code /\
    field generated "test_count" = Some test_count /\
    py_len functions = ret count /\
    (forall l, functions = PyList l ->
               count = PyInt (Z.of_nat (List.length l))) /\
    body resp =
      PyDict [("success", PyBool true);
              ("generated_tests", test_code);
              ("gcs_path", PyStr gcs_url);
              ("metadata",
               PyDict [("functions_analyzed", count);
                       ("test_cases_generated", test_count);
                       ("test_types", test_types_of d);
                       ("framework", framework_of d);
                       ("timestamp", PyStr (Clock.strftime (now sv)))]);
              ("analysis_summary", summary)].
Proof.
  intros H H200.
  destruct (generate_tests_200 sv _ _ _ H H200)
    as (d & src & pre & ares & ana & g & code & fns & count & cases & summ &
        Hj & Hres & Han & Hana & Hgen & Hcode & Hup & Hfns & Hlen & Hcases &
        Hsumm & -> & ->).
  exists d, src, ares, ana, fns, g, code, cases, count, summ, (output_url sv).
  split; [assumption|].
  split; [apply in_or_app; right; now left|].
  repeat (split; [assumption|]).
  split; [|reflexivity].
  intros l ->. simpl in Hlen. unfold ret in Hlen. congruence.
Qed.

(** C6, as the code has it.  Whenever [generate_tests] or [analyze_code]
    calls the analyzer, the text it passes comes from one place: the
    object at [gcs_path] when that field is present (truthy), whatever
    [source_code] holds, and the inline [source_code] otherwise; the
    storage read, if any, is the call just before the analyzer's, and
    none follows. *)
Theorem analyzed_text_is_resolved_first req tr resp source_code language :
  (generate_tests sv req = (tr, resp) \/ analyze_code sv req = (tr, resp)) ->
  In (EvAnalyze source_code language) tr ->
  exists d pre rest,
    get_json req = inr (PyDict d) /\
    resolved sv d source_code pre /\
    tr = (pre ++ EvAnalyze source_code language :: rest)%list /\
    forallb (fun ev => match ev with
                       | EvDownload _ _ | EvAnalyze _ _ => false
                       | _ => true
                       end) rest = true.
Proof.
  intros [H|H] Hin.
  - apply generate_tests_runs in H.
    destruct H as [-> _
                  | d e _ _ Hd _
                  | d src pre out Hj Hres -> _ _
                  | d src pre ares success ana out Hj Hres _ _ _ _ -> _ _
                  | d src pre ares success ana g code out Hj Hres _ _ _ _
                      _ _ -> _ _].
    + no_such_call Hin.
    + apply download_from_gcs_calls in Hd as [->|(? & ? & ->)];
        no_such_call Hin.
    + assert (Heq : EvAnalyze source_code language =
                    EvAnalyze src (language_of d))
        by same_call Hres Hin.
      injection Heq as -> ->. exists d, pre, []. auto.
    + assert (Heq : EvAnalyze source_code language =
                    EvAnalyze src (language_of d))
        by same_call Hres Hin.
      injection Heq as -> ->. exists d, pre. eexists. eauto.
    + assert (Heq : EvAnalyze source_code language =
                    EvAnalyze src (language_of d))
        by same_call Hres Hin.
      injection Heq as -> ->. exists d, pre. eexists. eauto.
  - destruct (analyze_code_analyzed sv _ _ _ _ _ H Hin)
      as (d & pre & Hj & Hres & -> & -> & _).
    exists d, pre, []. auto.
Qed.

End Pipeline.

(** ** The required fields and the first call *)

Section RequiredFields.

Variable sv : services.

(** The calls of [analyze_code] and the fields of the body. *)
Lemma analyze_code_calls_need_a_source req tr resp :
  analyze_code sv req = (tr, resp) ->
  tr <> [] ->
  exists d,
    get_json req = inr (PyDict d) /\
    truthy (get d "source_code") || truthy (get d "gcs_path") = true /\
    forall b k, In (EvDownload b k) tr -> truthy (get d "gcs_path") = true.
Proof.
  intros H Hne.
  run_in H.
  all: try (exfalso; apply Hne; reflexivity).
  all: repeat match goal with
         | H : negb _ = true |- _ => apply negb_true_iff in H
         | H : negb _ = false |- _ => apply negb_false_iff in H
         end.
  all: eexists; split; [reflexivity|].
  all: match goal with
       | H : truthy (get _ "gcs_path") = true |- _ =>
           rewrite H; split; [apply orb_true_r|reflexivity]
       | Hg : truthy (get _ "gcs_path") = false,
         Hs : truthy (get _ "source_code") = true |- _ =>
           rewrite Hs; split; [reflexivity|];
           intros b k Hin; simpl in Hin; intuition discriminate
       end.
Qed.

(** C2. On both endpoints the presence of [source_code] or [gcs_path] is
    settled before the first call: a run that made any call (storage
    read, analyzer, generator or storage write) had a body that is an
    object with a truthy [source_code] or [gcs_path], and a run that read
    storage had a truthy [gcs_path].  So a request with neither field
    triggers no call at all. *)
Theorem required_fields_come_first req tr resp :
  (generate_tests sv req = (tr, resp) \/ analyze_code sv req = (tr, resp)) ->
  tr <> [] ->
  exists d,
    get_json req = inr (PyDict d) /\
    truthy (get d "source_code") || truthy (get d "gcs_path") = true /\
    forall bucket_name blob_name,
      In (EvDownload bucket_name blob_name) tr ->
      truthy (get d "gcs_path") = true.
Proof.
  intros [H|H] Hne; [|exact (analyze_code_calls_need_a_source _ _ _ H Hne)].
  apply generate_tests_runs in H.
  assert (Hres : forall d src pre rest,
             resolved sv d src pre ->
             (forall b k, ~ In (EvDownload b k) rest) ->
             truthy (get d "source_code") || truthy (get d "gcs_path") = true /\
             forall b k, In (EvDownload b k) (pre ++ rest)%list ->
                         truthy (get d "gcs_path") = true).
  { intros d src pre rest
           [(_ & Hs & _ & ->)|(p & b0 & k0 & _ & Hg & Ht & _ & _ & _ & _ & ->)]
           Hrest.
    - split; [now rewrite Hs|]. intros b k Hin. now destruct (Hrest b k).
    - rewrite Hg, Ht. split; [apply orb_true_r|reflexivity]. }
  destruct H as [-> _
                | d e Hj Hg Hd _
                | d src pre out Hj Hr -> _ _
                | d src pre ares success ana out Hj Hr _ _ _ _ -> _ _
                | d src pre ares success ana g code out Hj Hr _ _ _ _ _ _
                    -> _ _];
    [contradiction| exists d; split; [assumption|].. ].
  - rewrite Hg. split; [apply orb_true_r|reflexivity].
  - apply (Hres _ _ _ _ Hr). intros b k Hin. simpl in Hin.
    intuition discriminate.
  - apply (Hres _ _ _ _ Hr). intros b k Hin. simpl in Hin.
    intuition discriminate.
  - apply (Hres _ _ _ _ Hr). intros b k Hin. simpl in Hin.
    intuition discriminate.
Qed.

End RequiredFields.

(** ** Validation and error statuses *)

Section Statuses.

Variable sv : services.

(** C3, as the code has it.  A [gcs_path] string that does not start with
    [gs://] makes [download_from_gcs] raise [ValueError] before any
    storage call, and either endpoint answers it with status [500]
    carrying that message, through its generic handler. *)
Theorem wrong_scheme_is_internal_error p d :
  prefix "gs://" p = false ->
  p <> "" ->
  get d "gcs_path" = PyStr p ->
  download_from_gcs sv (PyStr p) =
    ([], inl (ValueError "GCS path must start with gs://")) /\
  generate_tests sv (json_request (PyDict d)) =
    ([], internal_error sv (ValueError "GCS path must start with gs://")) /\
  analyze_code sv (json_request (PyDict d)) =
    ([], error_only "GCS path must start with gs://" 500).
Proof.
  intros Hp Hne Hgp.
  assert (Hd : download_from_gcs sv (PyStr p) =
               ([], inl (ValueError "GCS path must start with gs://"))).
  { unfold download_from_gcs. now rewrite Hp. }
  assert (Ht : truthy (get d "gcs_path") = true).
  { rewrite Hgp. simpl. destruct p; [contradiction|reflexivity]. }
  split; [exact Hd|]. rewrite <- Hgp in Hd. split.
  - exact (generate_tests_download_raises sv d _ _ Ht Hd).
  - exact (analyze_code_download_raises sv d _ _ Ht Hd).
Qed.

(** C4, as the code has it.  A body that is a JSON object with neither
    [source_code] nor [gcs_path] is answered [400] without any call; the
    error reads [Either source_code or gcs_path is required], except for
    the empty object, which is answered [Request body is required]. *)
Theorem missing_source_is_rejected d :
  lookup "source_code" d = None ->
  lookup "gcs_path" d = None ->
  generate_tests sv (json_request (PyDict d)) =
  ([], error_only
         match d with
         | [] => "Request body is required"
         | _ :: _ => "Either source_code or gcs_path is required"
         end 400).
Proof.
  intros Hs Hg. destruct d as [|x d']; [reflexivity|].
  cbv beta iota zeta delta
    [generate_tests generate_tests_try json_request get_json lift bind ret
     py_get try_except get_or].
  rewrite Hs, Hg. reflexivity.
Qed.

(** C9. A [gcs_path] that starts with [gs://] and has no [/] after it
    makes [download_from_gcs] raise [IndexError], from [path_parts[1]],
    before any storage call; nothing catches it short of the generic
    handler, which answers [500]. *)
Theorem bucket_only_path_raises_index_error p d :
  prefix "gs://" p = true ->
  contains "/" (slice_from 5 p) = false ->
  get d "gcs_path" = PyStr p ->
  download_from_gcs sv (PyStr p) = ([], inl (Fault IndexOutOfRange)) /\
  exn_class (Fault IndexOutOfRange) = "IndexError" /\
  generate_tests sv (json_request (PyDict d)) =
    ([], internal_error sv (Fault IndexOutOfRange)) /\
  analyze_code sv (json_request (PyDict d)) =
    ([], error_only (fault_message sv IndexOutOfRange) 500).
Proof.
  intros Hp Hc Hgp.
  assert (Hd : download_from_gcs sv (PyStr p) =
               ([], inl (Fault IndexOutOfRange))).
  { unfold download_from_gcs, split1.
    rewrite Hp, (partition_at_none _ _ Hc). reflexivity. }
  assert (Ht : truthy (get d "gcs_path") = true).
  { rewrite Hgp. now apply prefix_nonempty. }
  split; [exact Hd|]. split; [reflexivity|]. rewrite <- Hgp in Hd. split.
  - exact (generate_tests_download_raises sv d _ _ Ht Hd).
  - exact (analyze_code_download_raises sv d _ _ Ht Hd).
Qed.

(** C10, as the code has it.  What the two endpoints answer to a request
    without a JSON object depends on what [request.get_json()] does with
    it.  When it gives [None], or another falsy value that is not an
    object, [analyze_code] answers [500], from the [AttributeError] of
    [data.get] caught by its generic handler, while [generate_tests]
    answers [400] with [Request body is required].  When it raises, both
    endpoints answer [500] with the text of that exception, through their
    generic handlers, and do not disagree. *)
Theorem body_without_json_object data e :
  truthy data = false ->
  (forall d, data <> PyDict d) ->
  (analyze_code sv (json_request data) =
     ([], error_only (fault_message sv (NoAttribute (type_of data) "get")) 500)
   /\
   exn_class (Fault (NoAttribute (type_of data) "get")) = "AttributeError" /\
   generate_tests sv (json_request data) =
     ([], error_only "Request body is required" 400))
  /\
  (analyze_code sv {| get_json := inl e |} =
     ([], error_only (str_exn (fault_message sv) e) 500) /\
   generate_tests sv {| get_json := inl e |} =
     ([], internal_error sv e)).
Proof.
  intros Hfalsy Hno. split; [|split; reflexivity].
  split; [|split; [reflexivity|]].
  - destruct data; try reflexivity. now destruct (Hno d).
  - cbv beta iota zeta delta
      [generate_tests generate_tests_try json_request get_json lift bind ret
       try_except].
    now rewrite Hfalsy.
Qed.

End Statuses.

(** ** The handlers on the sample deployment *)

(** C1. [analyze_code] answers [200] with the analyzer's result when that
    result has [success = false]; [generate_tests] answers the same
    request with [400]. *)
Theorem analyze_code_answers_200_to_failed_analysis :
  analyze_code Sample.sv Sample.broken =
    ([EvAnalyze (PyStr "def broken(:") (PyStr "python")],
     jsonify Sample.failed_analysis 200) /\
  field Sample.failed_analysis "success" = Some (PyBool false) /\
  generate_tests Sample.sv Sample.broken =
    ([EvAnalyze (PyStr "def broken(:") (PyStr "python")],
     analysis_failed (PyStr "invalid syntax")).
Proof. repeat split. Qed.

(** [analyze_code] checks the text it has resolved, not the fields: a
    [gcs_path] naming an empty object is read and then answered with the
    message about the required fields. *)
Example analyze_code_on_an_empty_object :
  analyze_code Sample.sv Sample.empty_object =
    ([EvDownload "code" "empty.py"],
     error_only "source_code or gcs_path is required" 400).
Proof. reflexivity. Qed.

(** C10 fails as stated: for a body that is not JSON [request.get_json()]
    raises, and [generate_tests] answers [500] as [analyze_code] does, not
    [400]. *)
Lemma non_json_body_is_500_on_both :
  status (snd (generate_tests Sample.sv Scenario.not_json)) <> 400 /\
  fst (generate_tests Sample.sv Scenario.not_json) = [] /\
  status (snd (generate_tests Sample.sv Scenario.not_json)) =
  status (snd (analyze_code Sample.sv Scenario.not_json)).
Proof. repeat split. vm_compute. discriminate. Qed.

(** C3 fails as stated: [bucket/key] has not the shape
    [scheme://bucket/key], and the response is not a [400]. *)
Lemma wrong_scheme_is_not_400 :
  address_shape "bucket/key" = false /\
  status (snd (generate_tests Sample.sv
                 (json_request (PyDict [("gcs_path", PyStr "bucket/key")]))))
  <> 400.
Proof. split; [reflexivity|]. vm_compute. discriminate. Qed.

(** C4 fails as stated: the empty object has neither field, and its error
    is not the one about [source_code] and [gcs_path]. *)
Lemma empty_object_has_another_error :
  lookup "source_code" [] = None /\
  lookup "gcs_path" [] = None /\
  field (body (snd (generate_tests Sample.sv (json_request (PyDict [])))))
        "error"
  <> Some (PyStr "Either source_code or gcs_path is required").
Proof. repeat split. vm_compute. discriminate. Qed.

(** C6 fails as stated: a request carrying both [source_code] and
    [gcs_path] is accepted, and the stored text is the one analyzed. *)
Lemma both_sources_are_accepted :
  get_json Sample.both =
    inr (PyDict [("source_code", PyStr "x = 1");
                 ("gcs_path", PyStr "gs://code/src/add.py")]) /\
  exclusive_sources [("source_code", PyStr "x = 1");
                     ("gcs_path", PyStr "gs://code/src/add.py")] = false /\
  status (snd (generate_tests Sample.sv Sample.both)) = 200 /\
  In (EvAnalyze (PyStr "def add(a, b): return a + b") (PyStr "python"))
     (fst (generate_tests Sample.sv Sample.both)).
Proof. repeat split. vm_compute. auto. Qed.



(** The sample run with inline source answers with one analyzed function
    and one generated test case. *)
Lemma success_response_fields_witness :
  exists d source_code analysis_result analysis functions generated
         test_code test_count count summary gcs_url,
    get_json Sample.inline = inr (PyDict d) /\
    In (EvAnalyze source_code (language_of d))
       (fst (generate_tests Sample.sv Sample.inline)) /\
    analyze Sample.sv source_code (language_of d) = inr analysis_result /\
    field analysis_result "analysis" = Some analysis /\
    field analysis "functions" = Some functions /\
    field analysis "summary" = Some summary /\
    generate Sample.sv source_code analysis (language_of d) (test_types_of d)
             (framework_of d) = inr generated /\
    field generated "test_code" = Some test_code /\
    field generated "test_count" = Some test_count /\
    py_len functions = ret count /\
    (forall l, functions = PyList l ->
               count = PyInt (Z.of_nat (List.length l))) /\
    body (snd (generate_tests Sample.sv Sample.inline)) =
      PyDict [("success", PyBool true);
              ("generated_tests", test_code);
              ("gcs_path", PyStr gcs_url);
              ("metadata",
               PyDict [("functions_analyzed", count);
                       ("test_cases_generated", test_count);
                       ("test_types", test_types_of d);
                       ("framework", framework_of d);
                       ("timestamp", PyStr (Clock.strftime (now Sample.sv)))]);
              ("analysis_summary", summary)].
Proof.
  exact (success_response_fields
           Sample.sv Sample.inline
           (fst (generate_tests Sample.sv Sample.inline))
           (snd (generate_tests Sample.sv Sample.inline))
           eq_refl eq_refl).
Defined.

(** On the sample deployment: the upload of the inline run is the call
    right after the generator call that returned its content; the run
    whose generator raises writes nothing and answers [500] with the
    generator's exception. *)
Lemma upload_only_after_generation_witness :
  (exists pre source_code analysis language test_types framework generated,
      fst (generate_tests Sample.sv Sample.inline) =
        (pre ++
         [EvGenerate source_code analysis language test_types framework;
          EvUpload "ai-test-generator-bucket"
                   "generated_tests/20240309_070500_tests.py"
                   (PyStr "def test_add(): assert add(1, 2) == 3")])%list /\
      existsb is_upload pre = false /\
      generate Sample.sv source_code analysis language test_types framework
        = inr generated /\
      field generated "test_code" =
        Some (PyStr "def test_add(): assert add(1, 2) == 3")) /\
  existsb is_upload (fst (generate_tests Sample.sv Sample.junit)) = false /\
  snd (generate_tests Sample.sv Sample.junit) =
    internal_error Sample.sv
      (Raised "GenerationError" "junit is not a python framework").
Proof.
  split.
  - apply (proj1 (upload_only_after_generation
                    Sample.sv Sample.inline
                    (fst (generate_tests Sample.sv Sample.inline))
                    (snd (generate_tests Sample.sv Sample.inline)) eq_refl)).
    simpl. auto.
  - destruct (proj2 (upload_only_after_generation
                       Sample.sv Sample.junit
                       (fst (generate_tests Sample.sv Sample.junit))
                       (snd (generate_tests Sample.sv Sample.junit)) eq_refl)
                    (PyStr "def add(a, b): return a + b") Sample.analysis
                    (PyStr "python") default_test_types (PyStr "junit"))
      as (Hnone & _ & e & He & Hsame).
    + simpl. auto.
    + intros generated Hg. discriminate Hg.
    + split; [exact Hnone|].
      rewrite He. now rewrite (Hsame _ eq_refl).
Defined.

(** C5 fails as stated: the generator returns a value that has a
    [test_code] and no [test_count], so not a GeneratedTests, and the
    tests are written to storage all the same. *)
Lemma written_without_generated_tests :
  generate Scenario.no_count
           (PyStr "def add(a, b): return a + b") Sample.analysis
           (PyStr "python") default_test_types (PyStr "pytest") =
    inr (PyDict [("test_code", PyStr "def test_add(): pass")]) /\
  is_generated_tests (PyDict [("test_code", PyStr "def test_add(): pass")])
    = false /\
  fst (generate_tests Scenario.no_count Sample.inline) =
    [EvAnalyze (PyStr "def add(a, b): return a + b") (PyStr "python");
     EvGenerate (PyStr "def add(a, b): return a + b") Sample.analysis
                (PyStr "python") default_test_types (PyStr "pytest");
     EvUpload "tests-bucket" "generated_tests/20240309_070500_tests.py"
              (PyStr "def test_add(): pass")] /\
  upload_from_string Scenario.no_count "tests-bucket"
    "generated_tests/20240309_070500_tests.py"
    (PyStr "def test_add(): pass") = inr tt.
Proof. repeat split. Qed.

(** On the request carrying both fields, the analyzed text is the stored
    one. *)
Lemma analyzed_text_is_resolved_first_witness :
  exists d pre rest,
    get_json Sample.both = inr (PyDict d) /\
    resolved Sample.sv d (PyStr "def add(a, b): return a + b") pre /\
    fst (generate_tests Sample.sv Sample.both) =
      (pre ++ EvAnalyze (PyStr "def add(a, b): return a + b") (PyStr "python")
           :: rest)%list /\
    forallb (fun ev => match ev with
                       | EvDownload _ _ | EvAnalyze _ _ => false
                       | _ => true
                       end) rest = true.
Proof.
  apply (analyzed_text_is_resolved_first
           Sample.sv Sample.both
           (fst (generate_tests Sample.sv Sample.both))
           (snd (generate_tests Sample.sv Sample.both))).
  - left. reflexivity.
  - simpl. auto.
Defined.

Lemma wrong_scheme_is_internal_error_witness :
  download_from_gcs Sample.sv (PyStr "bucket/key") =
    ([], inl (ValueError "GCS path must start with gs://")) /\
  generate_tests Sample.sv
    (json_request (PyDict [("gcs_path", PyStr "bucket/key")])) =
    ([], internal_error Sample.sv
           (ValueError "GCS path must start with gs://")) /\
  analyze_code Sample.sv
    (json_request (PyDict [("gcs_path", PyStr "bucket/key")])) =
    ([], error_only "GCS path must start with gs://" 500).
Proof.
  apply (wrong_scheme_is_internal_error
           Sample.sv "bucket/key" [("gcs_path", PyStr "bucket/key")]).
  - reflexivity.
  - discriminate.
  - reflexivity.
Defined.

Lemma missing_source_is_rejected_witness :
  generate_tests Sample.sv (json_request (PyDict [("language", PyStr "java")])) =
  ([], error_only "Either source_code or gcs_path is required" 400).
Proof.
  apply (missing_source_is_rejected Sample.sv [("language", PyStr "java")]);
    reflexivity.
Defined.

Lemma bucket_only_path_raises_index_error_witness :
  download_from_gcs Sample.sv (PyStr "gs://bucket-only") =
    ([], inl (Fault IndexOutOfRange)) /\
  exn_class (Fault IndexOutOfRange) = "IndexError" /\
  generate_tests Sample.sv
    (json_request (PyDict [("gcs_path", PyStr "gs://bucket-only")])) =
    ([], internal_error Sample.sv (Fault IndexOutOfRange)) /\
  analyze_code Sample.sv
    (json_request (PyDict [("gcs_path", PyStr "gs://bucket-only")])) =
    ([], error_only (fault_message Sample.sv IndexOutOfRange) 500).
Proof.
  apply (bucket_only_path_raises_index_error
           Sample.sv "gs://bucket-only"
           [("gcs_path", PyStr "gs://bucket-only")]);
    reflexivity.
Defined.


(** * Further properties of the handlers *)

(** ** Addresses: what [download_from_gcs] reads and [upload_to_gcs] returns *)

Section Addresses.

Variable sv : services.

Lemma prefix_app a s : prefix a (a ++ s) = true.
Proof.
  induction a as [|c a IH]; simpl; [now destruct s|].
  destruct (ascii_dec c c); [exact IH|contradiction].
Qed.

Lemma prefix_split a s :
  prefix a s = true -> s = a ++ slice_from (String.length a) s.
Proof.
  revert s. induction a as [|c a IH]; intros s; [now destruct s|].
  destruct s as [|c' s]; simpl; [discriminate|].
  destruct (ascii_dec c c') as [<-|]; [|discriminate].
  intros H. f_equal. now apply IH.
Qed.

Lemma slice_from_app a s : slice_from (String.length a) (a ++ s) = s.
Proof. induction a as [|c a IH]; simpl; [now destruct s|exact IH]. Qed.

Lemma partition_at_app c h t :
  contains c h = false -> partition_at c (h ++ String c t) = Some (h, t).
Proof.
  induction h as [|a h IH]; simpl.
  - now rewrite Ascii.eqb_refl.
  - intros H. apply orb_false_iff in H. destruct H as [Ha Hh].
    now rewrite Ha, (IH Hh).
Qed.

Lemma partition_at_some c s h t :
  partition_at c s = Some (h, t) ->
  s = h ++ String c t /\ contains c h = false.
Proof.
  revert h. induction s as [|a s IH]; intros h; simpl; [discriminate|].
  destruct (Ascii.eqb a c) eqn:Ha.
  - intros [= <- <-]. apply Ascii.eqb_eq in Ha. subst. auto.
  - destruct (partition_at c s) as [[h' t']|]; [|discriminate].
    intros [= <- <-]. destruct (IH h' eq_refl) as [-> Hc].
    simpl. now rewrite Ha, Hc.
Qed.

(** What [download_from_gcs] does with the outcome of the storage read. *)
Definition read_outcome (r : exn + string) : exn + value :=
  match r with
  | inl e => inl e
  | inr text => inr (PyStr text)
  end.

(** Parsing an address that was put together from its parts. *)
Lemma download_from_gcs_parses bucket_name key :
  contains "/" bucket_name = false ->
  download_from_gcs sv (PyStr ("gs://" ++ bucket_name ++ "/" ++ key)) =
  ([EvDownload bucket_name key],
   read_outcome (download_as_text sv bucket_name key)).
Proof.
  intros Hb. unfold download_from_gcs, split1.
  rewrite (prefix_app "gs://").
  change 5 with (String.length "gs://"). rewrite slice_from_app.
  change ("/" ++ key) with (String "/" key).
  rewrite (partition_at_app _ _ _ Hb).
  cbv [negb index nth_error bind ret call].
  destruct (download_as_text sv bucket_name key); reflexivity.
Qed.

(** X1. The address [gs://bucket/key] is read as bucket [bucket] and object
    [key], for a bucket name without [/]: the key is everything after the
    first [/] behind the prefix, further [/] included, and the storage
    read's outcome is passed on. *)
Theorem download_from_gcs_reads_bucket_and_key bucket_name key :
  contains "/" bucket_name = false ->
  download_from_gcs sv (PyStr ("gs://" ++ bucket_name ++ "/" ++ key)) =
  ([EvDownload bucket_name key],
   read_outcome (download_as_text sv bucket_name key)).
Proof. exact (download_from_gcs_parses bucket_name key). Qed.

(** X2. Every string falls in one of three cases: it does not start
    with [gs://] and [ValueError] is raised; it starts with [gs://] and
    has no [/] behind it and [IndexError] is raised; or it is
    [gs://bucket/key] and the one storage read is made.  In the first two
    cases no call is made; in the third neither part is checked for being
    empty. *)
Theorem download_from_gcs_cases p :
  (prefix "gs://" p = false /\
   download_from_gcs sv (PyStr p) =
     ([], inl (ValueError "GCS path must start with gs://")))
  \/
  (prefix "gs://" p = true /\ contains "/" (slice_from 5 p) = false /\
   download_from_gcs sv (PyStr p) = ([], inl (Fault IndexOutOfRange)))
  \/
  (exists bucket_name key,
      p = "gs://" ++ bucket_name ++ "/" ++ key /\
      contains "/" bucket_name = false /\
      download_from_gcs sv (PyStr p) =
        ([EvDownload bucket_name key],
         read_outcome (download_as_text sv bucket_name key))).
Proof.
  destruct (prefix "gs://" p) eqn:Hp.
  - right.
    destruct (partition_at "/" (slice_from 5 p)) as [[b k]|] eqn:Hpart.
    + right. exists b, k.
      destruct (partition_at_some _ _ _ _ Hpart) as [Hs Hb].
      assert (Hpk : p = "gs://" ++ b ++ "/" ++ k).
      { rewrite (prefix_split _ _ Hp) at 1.
        change (String.length "gs://") with 5. now rewrite Hs. }
      split; [exact Hpk|]. split; [exact Hb|].
      rewrite Hpk. now apply download_from_gcs_parses.
    + left. split; [reflexivity|].
      assert (Hc : contains "/" (slice_from 5 p) = false).
      { destruct (contains "/" (slice_from 5 p)) eqn:Hc; [|reflexivity].
        exfalso. revert Hpart Hc. generalize (slice_from 5 p) as s.
        induction s as [|a s IH]; simpl; [discriminate|].
        destruct (Ascii.eqb a "/"); [discriminate|]. simpl.
        destruct (partition_at "/" s) as [[h t]|]; [discriminate|].
        intros _. now apply IH. }
      split; [exact Hc|].
      unfold download_from_gcs, split1. now rewrite Hp, Hpart.
  - left. split; [reflexivity|]. unfold download_from_gcs. now rewrite Hp.
Qed.

(** X3. The address [upload_to_gcs] returns, handed to [download_from_gcs],
    asks storage for the bucket and the path that were written, when the
    configured bucket name has no [/]. *)
Theorem uploaded_address_reads_back content destination_path t url :
  contains "/" (BUCKET_NAME sv) = false ->
  upload_to_gcs sv content destination_path = (t, inr url) ->
  t = [EvUpload (BUCKET_NAME sv) destination_path content] /\
  upload_from_string sv (BUCKET_NAME sv) destination_path content = inr tt /\
  download_from_gcs sv url =
  ([EvDownload (BUCKET_NAME sv) destination_path],
   read_outcome (download_as_text sv (BUCKET_NAME sv) destination_path)).
Proof.
  intros Hb. unfold upload_to_gcs, bind, call, ret.
  destruct (upload_from_string sv _ _ _) as [e|[]]; [discriminate|].
  intros [= <- <-]. split; [reflexivity|]. split; [reflexivity|].
  now apply download_from_gcs_parses.
Qed.

End Addresses.

(** ** Bodies and fields the handlers do not expect *)

Section Bodies.

Variable sv : services.

(** X4. A [gcs_path] that is truthy and not a string (a number, a list,
    an object, [true]) has no [startswith]: either endpoint answers
    [500] from the [AttributeError], without any call. *)
Theorem gcs_path_must_be_a_string d v :
  get d "gcs_path" = v ->
  truthy v = true ->
  (forall p, v <> PyStr p) ->
  generate_tests sv (json_request (PyDict d)) =
    ([], internal_error sv (Fault (NoAttribute (type_of v) "startswith"))) /\
  analyze_code sv (json_request (PyDict d)) =
    ([], error_only (fault_message sv (NoAttribute (type_of v) "startswith"))
           500).
Proof.
  intros Hv Ht Hns.
  assert (Hd : download_from_gcs sv (get d "gcs_path") =
               ([], inl (Fault (NoAttribute (type_of v) "startswith")))).
  { rewrite Hv. destruct v; try reflexivity. now destruct (Hns s). }
  rewrite <- Hv in Ht. split.
  - exact (generate_tests_download_raises sv d _ _ Ht Hd).
  - exact (analyze_code_download_raises sv d _ _ Ht Hd).
Qed.

(** X5. [generate_tests] answers every falsy JSON document ([null],
    [false], [0], the empty string, [[]], [{}]) with [400] and
    [Request body is required], without any call. *)
Theorem falsy_body_is_rejected data :
  truthy data = false ->
  generate_tests sv (json_request data) =
  ([], error_only "Request body is required" 400).
Proof.
  intros H.
  cbv beta iota zeta delta
    [generate_tests generate_tests_try json_request get_json lift bind ret
     try_except].
  now rewrite H.
Qed.

(** X6. A JSON document that is not an object has no [get]:
    [analyze_code] answers it with [500], falsy or not, and
    [generate_tests] answers it with [500] when it is truthy; neither
    makes a call. *)
Theorem non_object_body data :
  (forall d, data <> PyDict d) ->
  analyze_code sv (json_request data) =
    ([], error_only (fault_message sv (NoAttribute (type_of data) "get")) 500)
  /\
  (truthy data = true ->
   generate_tests sv (json_request data) =
     ([], internal_error sv (Fault (NoAttribute (type_of data) "get")))).
Proof.
  intros Hno. split.
  - destruct data; try reflexivity. now destruct (Hno d).
  - intros Ht.
    cbv beta iota zeta delta
      [generate_tests generate_tests_try json_request get_json lift bind ret
       try_except].
    rewrite Ht. destruct data; try reflexivity. now destruct (Hno d).
Qed.

(** X7. A field that is present but falsy (the empty string, [null],
    [false], [0], [[]]) counts as missing: when neither [source_code] nor
    [gcs_path] is truthy, both endpoints answer [400] without any call;
    the wording differs between them. *)
Theorem falsy_sources_are_missing d :
  truthy (get d "source_code") = false ->
  truthy (get d "gcs_path") = false ->
  analyze_code sv (json_request (PyDict d)) =
    ([], error_only "source_code or gcs_path is required" 400) /\
  (d <> [] ->
   generate_tests sv (json_request (PyDict d)) =
     ([], error_only "Either source_code or gcs_path is required" 400)).
Proof.
  intros Hs Hg. split.
  - cbv beta iota zeta delta
      [analyze_code analyze_code_try json_request get_json lift bind ret
       py_get try_except].
    now rewrite Hg, Hs.
  - intros Hd. destruct d as [|x d']; [contradiction|].
    cbv beta iota zeta delta
      [generate_tests generate_tests_try json_request get_json lift bind ret
       py_get try_except].
    change (truthy (PyDict (x :: d'))) with true.
    now rewrite Hs, Hg.
Qed.

End Bodies.

(** ** The calls and the answers of a run *)

Section Answers.

Variable sv : services.

Ltac no_such_call Hin :=
  simpl in Hin; intuition discriminate.

Ltac split_pre Hres :=
  destruct (resolved_calls sv _ _ _ Hres) as [->|(? & ? & ->)].

Ltac same_call Hres Hin :=
  split_pre Hres; simpl in Hin;
  repeat match goal with
    | H : _ \/ _ |- _ => destruct H as [H|H]; try discriminate
    | H : False |- _ => destruct H
    end;
  congruence.

(** Where a run of [analyze_code] can end. *)
Lemma analyze_code_runs req tr resp :
  analyze_code sv req = (tr, resp) ->
  exists pre,
    (pre = [] \/ exists b k, pre = [EvDownload b k]) /\
    ((tr = pre /\
      ((exists e, resp = error_only (str_exn (fault_message sv) e) 500) \/
       resp = error_only "source_code or gcs_path is required" 400))
     \/
     (exists source_code language,
         tr = (pre ++ [EvAnalyze source_code language])%list /\
         match analyze sv source_code language with
         | inl e => resp = error_only (str_exn (fault_message sv) e) 500
         | inr analysis_result => resp = jsonify analysis_result 200
         end)).
Proof.
  intros H.
  run_in H.
  all: repeat match goal with
         | H : download_from_gcs _ _ = _ |- _ =>
             apply download_from_gcs_calls in H
         end.
  all: try match goal with
         | H : ?l = [] \/ _ |- _ => exists l; split; [exact H|]
         end.
  all: try (exists []; split; [now left|]).
  all: rewrite ?app_nil_r.
  all: try solve [left; split; [reflexivity|]; first
                   [ right; reflexivity
                   | left; eexists; reflexivity
                   | left; eexists (Fault _); reflexivity ] ].
  all: right; do 2 eexists; split; [reflexivity|].
  all: match goal with
       | H : analyze _ _ _ = _ |- _ => rewrite H; reflexivity
       end.
Qed.

(** X8. The calls of [generate_tests] come in the order of the pipeline
    (an optional storage read, the analyzer, the generator, the storage
    write), each at most once and none without the one before it; and a
    storage write always goes to the configured bucket, under the key
    built from the clock, whatever bucket the source was read from. *)
Theorem generate_tests_calls_in_order req :
  calls_in_order (fst (generate_tests sv req)) = true /\
  forall bucket_name path content,
    In (EvUpload bucket_name path content) (fst (generate_tests sv req)) ->
    bucket_name = BUCKET_NAME sv /\ path = output_path sv.
Proof.
  destruct (generate_tests sv req) as [tr resp] eqn:H. simpl.
  apply generate_tests_runs in H.
  destruct H as [-> _
                | d e _ _ Hd _
                | d src pre out _ Hres -> _ _
                | d src pre ares success ana out _ Hres _ _ _ _ -> _ _
                | d src pre ares success ana g code out _ Hres _ _ _ _
                    _ _ -> _ _].
  - split; [reflexivity|]. intros b p c Hin. no_such_call Hin.
  - apply download_from_gcs_calls in Hd as [->|(? & ? & ->)];
      (split; [reflexivity|]; intros b p c Hin; no_such_call Hin).
  - split; [split_pre Hres; reflexivity|].
    intros b p c Hin. split_pre Hres; no_such_call Hin.
  - split; [split_pre Hres; reflexivity|].
    intros b p c Hin. split_pre Hres; no_such_call Hin.
  - split; [split_pre Hres; reflexivity|].
    intros b p c Hin.
    assert (Heq : EvUpload b p c =
                  EvUpload (BUCKET_NAME sv) (output_path sv) code)
      by same_call Hres Hin.
    injection Heq as -> -> ->. auto.
Qed.

(** X9. [analyze_code] makes at most a storage read and then an analyzer
    call, in that order; it never calls the generator and never writes to
    storage. *)
Theorem analyze_code_only_reads_and_analyzes req :
  calls_in_order (fst (analyze_code sv req)) = true /\
  existsb is_generate_or_upload (fst (analyze_code sv req)) = false.
Proof.
  destruct (analyze_code sv req) as [tr resp] eqn:H. simpl.
  destruct (analyze_code_runs _ _ _ H)
    as (pre & [->|(b & k & ->)] & [[-> _]|(src & lang & -> & _)]);
    split; reflexivity.
Qed.

(** X10. [generate_tests] has five answers: [200]; [400] with
    [Request body is required]; [400] with
    [Either source_code or gcs_path is required]; [400] with
    [Code analysis failed] and the analyzer's [error] as details; and
    [500] with [Internal server error] and the text of the exception as
    details. *)
Theorem generate_tests_answers req :
  let resp := snd (generate_tests sv req) in
  status resp = 200 \/
  resp = error_only "Request body is required" 400 \/
  resp = error_only "Either source_code or gcs_path is required" 400 \/
  (exists details, resp = analysis_failed details) \/
  (exists e, resp = internal_error sv e).
Proof.
  destruct (generate_tests sv req) as [tr resp] eqn:H. simpl.
  apply generate_tests_runs in H.
  destruct H as [_ [He|[->| ->]]
                | d e _ _ _ ->
                | d src pre out _ _ _ _ Hstop
                | d src pre ares success ana out _ _ _ _ _ _ _ _ Hstop
                | d src pre ares success ana g code out _ _ _ _ _ _
                    _ _ _ _ Hstop]; auto 6.
  - right; right; right; right. eauto.
  - unfold analysis_stops in Hstop. destruct out as [e|ares].
    + right; right; right; right. eauto.
    + destruct Hstop as [(e & _ & ->)
                        |[(s & _ & _ & d' & _ & ->)|(s & e & _ & _ & _ & ->)]];
        eauto 8.
  - unfold generation_stops in Hstop. destruct out as [e|g].
    + right; right; right; right. eauto.
    + destruct Hstop as (e & _ & ->). eauto 8.
  - unfold upload_stops in Hstop. destruct out as [e|u].
    + right; right; right; right. eauto.
    + destruct Hstop as [H200|He]; auto 8.
Qed.

(** X11. [analyze_code] has three answers: [500] with the text of the
    exception as its only field; [400] with
    [source_code or gcs_path is required]; and, only when the analyzer
    was called and returned, [200] with the analyzer's result as the body,
    unchanged and not inspected. *)
Theorem analyze_code_answers req :
  let tr := fst (analyze_code sv req) in
  let resp := snd (analyze_code sv req) in
  (exists e, resp = error_only (str_exn (fault_message sv) e) 500) \/
  resp = error_only "source_code or gcs_path is required" 400 \/
  (exists source_code language analysis_result,
      In (EvAnalyze source_code language) tr /\
      analyze sv source_code language = inr analysis_result /\
      resp = jsonify analysis_result 200).
Proof.
  destruct (analyze_code sv req) as [tr resp] eqn:H. simpl.
  destruct (analyze_code_runs _ _ _ H)
    as (pre & _ & [[_ [He| ->]]|(src & lang & -> & Hout)]); auto.
  destruct (analyze sv src lang) as [e|ares] eqn:Han.
  - left. eauto.
  - right; right. exists src, lang, ares.
    split; [apply in_or_app; right; now left|]. auto.
Qed.

Lemma download_from_gcs_failed v t e :
  download_from_gcs sv v = (t, inl e) ->
  t = [] \/
  exists b k, t = [EvDownload b k] /\ download_as_text sv b k = inl e.
Proof.
  unfold download_from_gcs. destruct v as [| | | |p| |];
    try (intros [= <- <-]; now left).
  destruct (prefix "gs://" p); simpl; [|intros [= <- <-]; now left].
  unfold index, bind, ret, raise, call.
  destruct (nth_error _ 0) as [b|]; [|intros [= <- <-]; now left].
  destruct (nth_error _ 1) as [k|]; [|intros [= <- <-]; now left].
  destruct (download_as_text sv b k) as [e'|text] eqn:Hd; simpl;
    intros [= <- <-]. eauto.
Qed.

(** A storage read made while resolving the source returned normally. *)
Lemma resolved_read_returned d src pre ev e :
  resolved sv d src pre -> In ev pre -> raises sv ev e -> False.
Proof.
  intros [(_ & _ & _ & ->)|(p & b & k & text & _ & _ & _ & _ & Hd & _ & ->)]
         Hin Hr.
  - destruct Hin.
  - destruct Hin as [<-|[]]. simpl in Hr. congruence.
Qed.

(** X12. When a collaborator raises (the storage read, the analyzer, the
    generator or the storage write), [generate_tests] makes no further
    call and answers [500] with the text of that exception as details. *)
Theorem collaborator_exception_ends_run req ev e :
  In ev (fst (generate_tests sv req)) ->
  raises sv ev e ->
  (exists pre, fst (generate_tests sv req) = (pre ++ [ev])%list) /\
  snd (generate_tests sv req) = internal_error sv e.
Proof.
  destruct (generate_tests sv req) as [tr resp] eqn:H. simpl.
  intros Hin Hr. apply generate_tests_runs in H.
  destruct H as [-> _
                | d e' _ _ Hd ->
                | d src pre out _ Hres -> Hout Hstop
                | d src pre ares success ana out _ Hres Han _ _ _ -> Hout Hstop
                | d src pre ares success ana g code out _ Hres Han _ _ _
                    Hgen _ -> Hout Hstop].
  - destruct Hin.
  - apply download_from_gcs_failed in Hd as [->|(b & k & -> & Hd)];
      [destruct Hin|].
    destruct Hin as [<-|[]]. simpl in Hr.
    split; [now exists []|congruence].
  - apply in_app_or in Hin as [Hin|[<-|[]]];
      [destruct (resolved_read_returned _ _ _ _ _ Hres Hin Hr)|].
    simpl in Hr. split; [eauto|].
    rewrite Hr in Hout. subst out. exact Hstop.
  - apply in_app_or in Hin as [Hin|[<-|[<-|[]]]];
      [destruct (resolved_read_returned _ _ _ _ _ Hres Hin Hr)| |];
      simpl in Hr; [congruence|].
    split; [exists (pre ++ [EvAnalyze src (language_of d)])%list;
            now rewrite <- app_assoc|].
    rewrite Hr in Hout. subst out. exact Hstop.
  - apply in_app_or in Hin as [Hin|[<-|[<-|[<-|[]]]]];
      [destruct (resolved_read_returned _ _ _ _ _ Hres Hin Hr)| | |];
      simpl in Hr; [congruence|congruence|].
    split; [exists (pre ++ [EvAnalyze src (language_of d);
                            EvGenerate src ana (language_of d)
                                       (test_types_of d) (framework_of d)])%list;
            now rewrite <- app_assoc|].
    rewrite Hr in Hout. subst out. exact Hstop.
Qed.

(** X13. The generator is called with the text and the language the
    analyzer was called with, with the [analysis] of the analyzer's
    result, and with [language], [test_types] and [framework] as the body
    gives them: only an absent key is replaced, by [python], by
    [[unit, edge, negative]] and by [pytest] (whatever the language); a key
    that is present is passed as it is, [null] included. *)
Theorem generator_gets_the_analyzed_text req :
  forall source_code analysis language test_types framework,
    In (EvGenerate source_code analysis language test_types framework)
       (fst (generate_tests sv req)) ->
    exists d analysis_result,
      get_json req = inr (PyDict d) /\
      In (EvAnalyze source_code language) (fst (generate_tests sv req)) /\
      analyze sv source_code language = inr analysis_result /\
      field analysis_result "analysis" = Some analysis /\
      language =
        match lookup "language" d with
        | Some x => x
        | None => PyStr "python"
        end /\
      test_types =
        match lookup "test_types" d with
        | Some x => x
        | None => PyList [PyStr "unit"; PyStr "edge"; PyStr "negative"]
        end /\
      framework =
        match lookup "framework" d with
        | Some x => x
        | None => PyStr "pytest"
        end.
Proof.
  destruct (generate_tests sv req) as [tr resp] eqn:H. simpl.
  intros src' ana' lang' tys' fw' Hin. apply generate_tests_runs in H.
  destruct H as [-> _
                | d e _ _ Hd _
                | d src pre out _ Hres -> _ _
                | d src pre ares success ana out Hj Hres Han _ _ Hana -> _ _
                | d src pre ares success ana g code out Hj Hres Han _ _ Hana
                    _ _ -> _ _].
  - no_such_call Hin.
  - apply download_from_gcs_calls in Hd as [->|(? & ? & ->)];
      no_such_call Hin.
  - split_pre Hres; no_such_call Hin.
  - assert (Heq : EvGenerate src' ana' lang' tys' fw' =
                  EvGenerate src ana (language_of d) (test_types_of d)
                             (framework_of d))
      by same_call Hres Hin.
    injection Heq as -> -> -> -> ->. exists d, ares.
    split; [assumption|]. split; [apply in_or_app; right; now left|].
    repeat split; assumption.
  - assert (Heq : EvGenerate src' ana' lang' tys' fw' =
                  EvGenerate src ana (language_of d) (test_types_of d)
                             (framework_of d))
      by same_call Hres Hin.
    injection Heq as -> -> -> -> ->. exists d, ares.
    split; [assumption|]. split; [apply in_or_app; right; now left|].
    repeat split; assumption.
Qed.

(** X14. The storage write comes before the response is assembled and is
    not undone: when the generator's result has a [test_code] but no
    [test_count], or the analysis has no [functions] or no [summary], the
    tests are handed to storage and the answer is [500]. *)
Theorem write_survives_failed_response
        req source_code analysis language test_types framework generated
        test_code :
  In (EvGenerate source_code analysis language test_types framework)
     (fst (generate_tests sv req)) ->
  generate sv source_code analysis language test_types framework
    = inr generated ->
  field generated "test_code" = Some test_code ->
  field generated "test_count" = None \/
  field analysis "functions" = None \/
  field analysis "summary" = None ->
  In (EvUpload (BUCKET_NAME sv) (output_path sv) test_code)
     (fst (generate_tests sv req)) /\
  status (snd (generate_tests sv req)) = 500.
Proof.
  destruct (generate_tests sv req) as [tr resp] eqn:H. simpl.
  intros Hin Hg Hcode Hmissing. pose proof H as Hrun.
  apply generate_tests_runs in H.
  destruct H as [-> _
                | d e _ _ Hd _
                | d src pre out _ Hres -> _ _
                | d src pre ares success ana out _ Hres _ _ _ _ -> Hout Hstop
                | d src pre ares success ana g code out _ Hres _ _ _ _
                    Hgen Hc -> Hout Hstop].
  - no_such_call Hin.
  - apply download_from_gcs_calls in Hd as [->|(? & ? & ->)];
      no_such_call Hin.
  - split_pre Hres; no_such_call Hin.
  - assert (Heq : EvGenerate source_code analysis language test_types framework
                  = EvGenerate src ana (language_of d) (test_types_of d)
                               (framework_of d))
      by same_call Hres Hin.
    injection Heq as -> -> -> -> ->. rewrite Hg in Hout. subst out.
    destruct Hstop as (e & Hraise & _). exfalso.
    unfold py_getitem, field in *. destruct generated; try discriminate.
    rewrite Hcode in Hraise. discriminate.
  - assert (Heq : EvGenerate source_code analysis language test_types framework
                  = EvGenerate src ana (language_of d) (test_types_of d)
                               (framework_of d))
      by same_call Hres Hin.
    injection Heq as -> -> -> -> ->.
    assert (g = generated) by congruence. subst g.
    assert (code = test_code) by congruence. subst code.
    split; [apply in_or_app; right; simpl; auto|].
    destruct (Nat.eq_dec (status resp) 200) as [H200|Hn200].
    + exfalso.
      destruct (generate_tests_200 sv _ _ _ Hrun H200)
        as (d' & src' & pre' & ares' & ana' & g' & code' & fns & count &
            cases & summ & _ & Hres' & _ & _ & Hgen' & _ & _ & Hfns & _ &
            Hcases & Hsumm & Htr & _).
      assert (Heq : EvGenerate src ana (language_of d) (test_types_of d)
                               (framework_of d)
                    = EvGenerate src' ana' (language_of d') (test_types_of d')
                                 (framework_of d')).
      { assert (Hin' : In (EvGenerate src ana (language_of d)
                                      (test_types_of d) (framework_of d))
                          (pre' ++
                           [EvAnalyze src' (language_of d');
                            EvGenerate src' ana' (language_of d')
                                       (test_types_of d') (framework_of d');
                            EvUpload (BUCKET_NAME sv) (output_path sv) code'])%list).
        { rewrite <- Htr. apply in_or_app; right; simpl; auto. }
        same_call Hres' Hin'. }
      injection Heq as -> -> Hl Ht Hf. rewrite <- Hl, <- Ht, <- Hf in Hgen'.
      assert (g' = generated) by congruence. subst g'.
      destruct Hmissing as [Hm|[Hm|Hm]]; congruence.
    + unfold upload_stops in Hstop. destruct out as [e|u].
      * now subst resp.
      * destruct Hstop as [H200|(e & ->)]; [contradiction|reflexivity].
Qed.

(** X15. The [gcs_path] a successful [generate_tests] returns is an
    address [download_from_gcs] reads as the bucket and the key the tests
    were written to, when the configured bucket name has no [/]. *)
Theorem returned_address_is_readable req :
  contains "/" (BUCKET_NAME sv) = false ->
  status (snd (generate_tests sv req)) = 200 ->
  exists url test_code,
    field (body (snd (generate_tests sv req))) "gcs_path" = Some (PyStr url) /\
    In (EvUpload (BUCKET_NAME sv) (output_path sv) test_code)
       (fst (generate_tests sv req)) /\
    download_from_gcs sv (PyStr url) =
      ([EvDownload (BUCKET_NAME sv) (output_path sv)],
       read_outcome (download_as_text sv (BUCKET_NAME sv) (output_path sv))).
Proof.
  destruct (generate_tests sv req) as [tr resp] eqn:H. simpl.
  intros Hb H200.
  destruct (generate_tests_200 sv _ _ _ H H200)
    as (d & src & pre & ares & ana & g & code & fns & count & cases & summ &
        _ & _ & _ & _ & _ & _ & _ & _ & _ & _ & _ & -> & ->).
  exists (output_url sv), code. split; [reflexivity|].
  split; [apply in_or_app; right; simpl; auto|].
  now apply download_from_gcs_parses.
Qed.

(** X16. The object key depends on the clock alone: two successful runs
    that read the same second from the clock, under the same bucket
    setting, write to the same object and return the same [gcs_path],
    whatever their requests. *)
Theorem same_second_same_object sv' req req' :
  now sv = now sv' ->
  GCS_BUCKET sv = GCS_BUCKET sv' ->
  status (snd (generate_tests sv req)) = 200 ->
  status (snd (generate_tests sv' req')) = 200 ->
  field (body (snd (generate_tests sv req))) "gcs_path" =
  field (body (snd (generate_tests sv' req'))) "gcs_path" /\
  exists test_code test_code',
    In (EvUpload (BUCKET_NAME sv) (output_path sv) test_code)
       (fst (generate_tests sv req)) /\
    In (EvUpload (BUCKET_NAME sv) (output_path sv) test_code')
       (fst (generate_tests sv' req')).
Proof.
  destruct (generate_tests sv req) as [tr resp] eqn:H.
  destruct (generate_tests sv' req') as [tr' resp'] eqn:H'. simpl.
  intros Hnow Hbucket H200 H200'.
  destruct (generate_tests_200 sv _ _ _ H H200)
    as (d & src & pre & ares & ana & g & code & fns & count & cases & summ &
        _ & _ & _ & _ & _ & _ & _ & _ & _ & _ & _ & -> & ->).
  destruct (generate_tests_200 sv' _ _ _ H' H200')
    as (d' & src' & pre' & ares' & ana' & g' & code' & fns' & count' &
        cases' & summ' & _ & _ & _ & _ & _ & _ & _ & _ & _ & _ & _ & -> & ->).
  assert (Hp : output_path sv' = output_path sv)
    by (unfold output_path; now rewrite Hnow).
  assert (Hb : BUCKET_NAME sv' = BUCKET_NAME sv)
    by (unfold BUCKET_NAME; now rewrite Hbucket).
  split.
  - simpl. unfold output_url. now rewrite Hp, Hb.
  - exists code, code'. rewrite Hp, Hb.
    split; apply in_or_app; right; simpl; auto.
Qed.

End Answers.

(** ** Timestamps and object keys *)

Section Keys.

Import Clock.

Lemma digit_inj a b : digit a = digit b -> a mod 10 = b mod 10.
Proof.
  unfold digit. intros H. apply (f_equal nat_of_ascii) in H.
  assert (Ha : a mod 10 < 10) by (apply Nat.mod_upper_bound; lia).
  assert (Hb : b mod 10 < 10) by (apply Nat.mod_upper_bound; lia).
  rewrite !nat_ascii_embedding in H by lia. lia.
Qed.

Lemma two_digits_inj n m :
  n < 100 -> m < 100 ->
  digit (n / 10) = digit (m / 10) -> digit n = digit m -> n = m.
Proof.
  intros Hn Hm Hhi Hlo. apply digit_inj in Hhi, Hlo.
  assert (Hn' : n / 10 < 10) by (apply Nat.Div0.div_lt_upper_bound; lia).
  assert (Hm' : m / 10 < 10) by (apply Nat.Div0.div_lt_upper_bound; lia).
  rewrite !Nat.mod_small in Hhi by assumption.
  rewrite (Nat.div_mod_eq n 10), (Nat.div_mod_eq m 10). lia.
Qed.

Lemma four_digits_inj n m :
  n < 100 * 100 -> m < 100 * 100 ->
  digit (n / 10 / 10 / 10) = digit (m / 10 / 10 / 10) ->
  digit (n / 10 / 10) = digit (m / 10 / 10) ->
  digit (n / 10) = digit (m / 10) ->
  digit n = digit m -> n = m.
Proof.
  intros Hn Hm H3 H2 H1 H0.
  assert (Hn' : n / 10 / 10 < 100)
    by (repeat apply Nat.Div0.div_lt_upper_bound; lia).
  assert (Hm' : m / 10 / 10 < 100)
    by (repeat apply Nat.Div0.div_lt_upper_bound; lia).
  pose proof (two_digits_inj _ _ Hn' Hm' H3 H2) as Hhi.
  apply digit_inj in H1, H0.
  rewrite (Nat.div_mod_eq n 10), (Nat.div_mod_eq m 10).
  rewrite (Nat.div_mod_eq (n / 10) 10), (Nat.div_mod_eq (m / 10) 10).
  lia.
Qed.

(** X17. The timestamp tells the clock reading: two readings with
    four-digit years that print the same are the same reading, so runs in
    different seconds get different object keys. *)
Theorem different_seconds_different_keys sv sv' :
  valid (now sv) -> valid (now sv') ->
  output_path sv = output_path sv' ->
  now sv = now sv'.
Proof.
  unfold output_path, strftime, two_digits.
  destruct (now sv) as [y mo d h mi s], (now sv') as [y' mo' d' h' mi' s'].
  intros (Hy & Hmo & Hd & Hh & Hmi & Hs) (Hy' & Hmo' & Hd' & Hh' & Hmi' & Hs').
  simpl year in *; simpl month in *; simpl day in *;
    simpl hour in *; simpl minute in *; simpl second in *.
  rewrite (ClockFacts.decimal_four_digits _ Hy),
          (ClockFacts.decimal_four_digits _ Hy').
  cbv [append]. intros H.
  injection H as Y3 Y2 Y1 Y0 M1 M0 D1 D0 H1 H0 I1 I0 S1 S0.
  f_equal;
    first [ apply four_digits_inj; (assumption || lia)
          | apply two_digits_inj; (assumption || lia) ].
Qed.

End Keys.

Section AnalyzeCodeFailures.

Variable sv : services.

(** X20. When the storage read or the analyzer raises, [analyze_code]
    makes no further call and answers [500] with the text of that
    exception as its [error]. *)
Theorem analyze_code_exception_ends_run req ev e :
  In ev (fst (analyze_code sv req)) ->
  raises sv ev e ->
  (exists pre, fst (analyze_code sv req) = (pre ++ [ev])%list) /\
  snd (analyze_code sv req) =
    error_only (str_exn (fault_message sv) e) 500.
Proof.
  destruct (analyze_code sv req) as [tr resp] eqn:H. simpl.
  intros Hin Hr.
  run_in H.
  all: repeat match goal with
         | H : download_from_gcs _ _ = (_, inl _) |- _ =>
             apply download_from_gcs_failed in H;
             destruct H as [->|(? & ? & -> & ?)]
         | H : download_from_gcs _ _ = (_, inr _) |- _ =>
             apply download_from_gcs_ok in H;
             destruct H as (? & ? & ? & ? & _ & _ & _ & ? & ? & ->)
         end.
  all: simpl in Hin.
  all: repeat match goal with
         | H : _ \/ _ |- _ => destruct H as [H|H]
         | H : False |- _ => destruct H
         end.
  all: subst; simpl in Hr; try congruence.
  all: split;
    [ first [ now exists [] | eexists [_]; reflexivity ]
    | match goal with
      | |- context [str_exn _ ?e0] =>
          replace e0 with e by congruence; reflexivity
      end ].
Qed.

End AnalyzeCodeFailures.

(** ** The further properties on the sample deployments *)

Lemma download_from_gcs_reads_bucket_and_key_witness :
  download_from_gcs Sample.sv (PyStr "gs://code/src/pkg/add.py") =
  ([EvDownload "code" "src/pkg/add.py"],
   inr (PyStr "def add(a, b): return a + b")).
Proof.
  exact (download_from_gcs_reads_bucket_and_key
           Sample.sv "code" "src/pkg/add.py" eq_refl).
Defined.

Lemma uploaded_address_reads_back_witness :
  download_from_gcs Sample.sv
    (PyStr "gs://ai-test-generator-bucket/out/test_add.py") =
  ([EvDownload "ai-test-generator-bucket" "out/test_add.py"],
   inr (PyStr "def add(a, b): return a + b")).
Proof.
  exact (proj2 (proj2
           (uploaded_address_reads_back
              Sample.sv (PyStr "def test_add(): pass") "out/test_add.py"
              [EvUpload "ai-test-generator-bucket" "out/test_add.py"
                        (PyStr "def test_add(): pass")]
              (PyStr "gs://ai-test-generator-bucket/out/test_add.py")
              eq_refl eq_refl))).
Defined.

Lemma gcs_path_must_be_a_string_witness :
  generate_tests Sample.sv (json_request (PyDict [("gcs_path", PyInt 5)])) =
    ([], internal_error Sample.sv (Fault (NoAttribute TInt "startswith"))) /\
  analyze_code Sample.sv (json_request (PyDict [("gcs_path", PyInt 5)])) =
    ([], error_only "AttributeError" 500).
Proof.
  apply (gcs_path_must_be_a_string
           Sample.sv [("gcs_path", PyInt 5)] (PyInt 5));
    [reflexivity|reflexivity|discriminate].
Defined.

Lemma falsy_body_is_rejected_witness :
  generate_tests Sample.sv (json_request (PyList [])) =
  ([], error_only "Request body is required" 400).
Proof.
  exact (falsy_body_is_rejected Sample.sv (PyList []) eq_refl).
Defined.

Lemma non_object_body_witness :
  analyze_code Sample.sv (json_request (PyStr "def add(): pass")) =
    ([], error_only "AttributeError" 500) /\
  generate_tests Sample.sv (json_request (PyStr "def add(): pass")) =
    ([], internal_error Sample.sv (Fault (NoAttribute TStr "get"))).
Proof.
  destruct (non_object_body Sample.sv (PyStr "def add(): pass"))
    as [Ha Hg]; [discriminate|].
  split; [exact Ha|exact (Hg eq_refl)].
Defined.

Lemma falsy_sources_are_missing_witness :
  analyze_code Sample.sv
    (json_request (PyDict [("source_code", PyStr ""); ("gcs_path", PyNone)])) =
    ([], error_only "source_code or gcs_path is required" 400) /\
  generate_tests Sample.sv
    (json_request (PyDict [("source_code", PyStr ""); ("gcs_path", PyNone)])) =
    ([], error_only "Either source_code or gcs_path is required" 400).
Proof.
  destruct (falsy_sources_are_missing
              Sample.sv [("source_code", PyStr ""); ("gcs_path", PyNone)]
              eq_refl eq_refl) as [Ha Hg].
  split; [exact Ha|apply Hg; discriminate].
Defined.

Lemma collaborator_exception_ends_run_witness :
  snd (generate_tests Sample.sv Sample.junit) =
  internal_error Sample.sv
    (Raised "GenerationError" "junit is not a python framework").
Proof.
  refine (proj2 (collaborator_exception_ends_run
                   Sample.sv Sample.junit
                   (EvGenerate (PyStr "def add(a, b): return a + b")
                               Sample.analysis (PyStr "python")
                               default_test_types (PyStr "junit"))
                   (Raised "GenerationError" "junit is not a python framework")
                   _ eq_refl)).
  simpl. auto.
Defined.

Lemma generator_gets_the_analyzed_text_witness :
  exists d analysis_result,
    get_json Sample.inline = inr (PyDict d) /\
    In (EvAnalyze (PyStr "def add(a, b): return a + b") (PyStr "python"))
       (fst (generate_tests Sample.sv Sample.inline)) /\
    analyze Sample.sv (PyStr "def add(a, b): return a + b") (PyStr "python")
      = inr analysis_result /\
    field analysis_result "analysis" = Some Sample.analysis /\
    PyStr "python" =
      match lookup "language" d with
      | Some x => x
      | None => PyStr "python"
      end /\
    default_test_types =
      match lookup "test_types" d with
      | Some x => x
      | None => PyList [PyStr "unit"; PyStr "edge"; PyStr "negative"]
      end /\
    PyStr "pytest" =
      match lookup "framework" d with
      | Some x => x
      | None => PyStr "pytest"
      end.
Proof.
  apply (generator_gets_the_analyzed_text
           Sample.sv Sample.inline
           (PyStr "def add(a, b): return a + b") Sample.analysis
           (PyStr "python") default_test_types (PyStr "pytest")).
  simpl. auto.
Defined.

Lemma write_survives_failed_response_witness :
  In (EvUpload "tests-bucket" "generated_tests/20240309_070500_tests.py"
               (PyStr "def test_add(): pass"))
     (fst (generate_tests Scenario.no_count Sample.inline)) /\
  status (snd (generate_tests Scenario.no_count Sample.inline)) = 500.
Proof.
  apply (write_survives_failed_response
           Scenario.no_count Sample.inline
           (PyStr "def add(a, b): return a + b") Sample.analysis
           (PyStr "python") default_test_types (PyStr "pytest")
           (PyDict [("test_code", PyStr "def test_add(): pass")])
           (PyStr "def test_add(): pass")).
  - simpl. auto.
  - reflexivity.
  - reflexivity.
  - left. reflexivity.
Defined.

Lemma returned_address_is_readable_witness :
  exists url test_code,
    field (body (snd (generate_tests Sample.sv Sample.inline))) "gcs_path"
      = Some (PyStr url) /\
    In (EvUpload (BUCKET_NAME Sample.sv) (output_path Sample.sv) test_code)
       (fst (generate_tests Sample.sv Sample.inline)) /\
    download_from_gcs Sample.sv (PyStr url) =
      ([EvDownload (BUCKET_NAME Sample.sv) (output_path Sample.sv)],
       read_outcome (download_as_text Sample.sv (BUCKET_NAME Sample.sv)
                                      (output_path Sample.sv))).
Proof.
  exact (returned_address_is_readable Sample.sv Sample.inline eq_refl eq_refl).
Defined.

Lemma same_second_same_object_witness :
  field (body (snd (generate_tests Sample.sv Sample.inline))) "gcs_path" =
  field (body (snd (generate_tests Sample.sv Sample.both))) "gcs_path".
Proof.
  exact (proj1 (same_second_same_object
                  Sample.sv Sample.sv Sample.inline Sample.both
                  eq_refl eq_refl eq_refl eq_refl)).
Defined.

Lemma scenario_clock_valid : Clock.valid (now Scenario.read_fails).
Proof. unfold Clock.valid. simpl. lia. Defined.

Lemma different_seconds_different_keys_witness :
  now Scenario.read_fails = now Scenario.no_count.
Proof.
  exact (different_seconds_different_keys
           Scenario.read_fails Scenario.no_count
           scenario_clock_valid scenario_clock_valid eq_refl).
Defined.

Lemma generate_tests_validates_first_witness :
  exists d,
    get_json Scenario.stored = inr (PyDict d) /\
    truthy (get d "source_code") || truthy (get d "gcs_path") = true.
Proof.
  apply (generate_tests_validates_first
           Sample.sv Scenario.stored
           (fst (generate_tests Sample.sv Scenario.stored))
           (snd (generate_tests Sample.sv Scenario.stored)));
    [reflexivity|discriminate].
Defined.

Lemma generate_tests_rejects_failed_analysis_witness :
  exists d' pre,
    Sample.failed_analysis = PyDict d' /\
    snd (generate_tests Sample.sv Sample.broken) =
      analysis_failed (get d' "error") /\
    fst (generate_tests Sample.sv Sample.broken) =
      (pre ++ [EvAnalyze (PyStr "def broken(:") (PyStr "python")])%list.
Proof.
  apply (generate_tests_rejects_failed_analysis
           Sample.sv Sample.broken
           (fst (generate_tests Sample.sv Sample.broken))
           (snd (generate_tests Sample.sv Sample.broken))
           (PyStr "def broken(:") (PyStr "python")
           Sample.failed_analysis (PyBool false)).
  - reflexivity.
  - simpl. auto.
  - reflexivity.
  - reflexivity.
  - reflexivity.
Defined.

Lemma analyze_code_exception_ends_run_witness :
  snd (analyze_code Scenario.read_fails Scenario.stored) =
  error_only "404 No such object" 500.
Proof.
  refine (proj2 (analyze_code_exception_ends_run
                   Scenario.read_fails Scenario.stored
                   (EvDownload "code" "src/add.py")
                   (Raised "NotFound" "404 No such object") _ eq_refl)).
  simpl. auto.
Defined.

(** A stored source read by [analyze_code]: the run made calls, and the
    body had its [gcs_path]. *)
Lemma required_fields_come_first_witness :
  exists d,
    get_json Scenario.stored = inr (PyDict d) /\
    truthy (get d "source_code") || truthy (get d "gcs_path") = true /\
    forall bucket_name blob_name,
      In (EvDownload bucket_name blob_name)
         (fst (analyze_code Sample.sv Scenario.stored)) ->
      truthy (get d "gcs_path") = true.
Proof.
  apply (required_fields_come_first
           Sample.sv Scenario.stored
           (fst (analyze_code Sample.sv Scenario.stored))
           (snd (analyze_code Sample.sv Scenario.stored))).
  - right. reflexivity.
  - discriminate.
Defined.

(** [null] as the document, and a body that is not JSON. *)
Lemma body_without_json_object_witness :
  (analyze_code Sample.sv (json_request PyNone) =
     ([], error_only "AttributeError" 500) /\
   exn_class (Fault (NoAttribute TNone "get")) = "AttributeError" /\
   generate_tests Sample.sv (json_request PyNone) =
     ([], error_only "Request body is required" 400))
  /\
  (analyze_code Sample.sv {| get_json := inl (Raised "BadRequest" "400 Bad Request") |} =
     ([], error_only "400 Bad Request" 500) /\
   generate_tests Sample.sv {| get_json := inl (Raised "BadRequest" "400 Bad Request") |} =
     ([], internal_error Sample.sv (Raised "BadRequest" "400 Bad Request"))).
Proof.
  apply (body_without_json_object
           Sample.sv PyNone (Raised "BadRequest" "400 Bad Request"));
    [reflexivity|discriminate].
Defined.
